(** * Mood tracker front end: a shallow embedding of its four pages

    The repository is the React client of a mood-tracking application:
    [Dashboard] (src/unnamed/part_000), [Statistics] (src/unnamed/part_001),
    [History] (src/frontend/src/pages/History.jsx) and [AddMood]
    (src/frontend/src/pages/AddMood.jsx), all talking to one REST API
    rooted at [API] (src/frontend/src/App.js).

    Every page is a function component: a record of [useState] cells and a
    few [async] handlers.  A handler is embedded as a computation in a small
    monad that threads the component state, logs what the handler does to
    the outside (toasts, console output, downloads, navigation), can throw,
    and can suspend at an [await]: the promise it waits for and the rest of
    the function are kept in the result, so that whatever happens between
    the request and its settlement is visible to the model. *)

From Stdlib Require Import List String Ascii ZArith Lia Bool DecimalString Permutation.
Import ListNotations.

Local Open Scope string_scope.
Local Open Scope list_scope.
Local Open Scope Z_scope.

(** Template literals concatenate strings. *)
Infix "^^" := String.append (at level 35, right associativity).

(** ** The Mood Entry, as the client reads it *)

(** A [Date] object's time value: milliseconds since the epoch, or [None]
    for an Invalid Date (the time value NaN). *)
Definition TimeValue := option Z.

(** The fields the pages read from an entry of [GET /api/moods].  The
    [timestamp] field is only ever used through [new Date(mood.timestamp)],
    so it is kept as the time value that constructor yields. *)
Record Mood := {
  id : string;
  mood : string;
  note : string;
  detection_method : string;
  timestamp : TimeValue
}.

(** [{ mood_counts: { mood: count } }]; the object is kept as the list of
    its own properties in the order [Object.entries] enumerates them. *)
Record Stats := { mood_counts : list (string * Z) }.

(** [{ emotion, confidence }] of [POST /api/moods/detect]; the confidence is
    a percentage, kept in tenths as [toFixed(1)] prints it. *)
Record Detection := { emotion : string; confidence : Z }.

(** ** The host: build-time configuration and the [Date] built-ins *)

Class Host := {
  (** [process.env.REACT_APP_BACKEND_URL] *)
  BACKEND_URL : string;
  (** [new Date(t).toISOString()] for a valid time value [t] *)
  toISOString : Z -> string;
  (** [new Date(t).toLocaleDateString('en-US',
        { year: 'numeric', month: 'long', day: 'numeric' })],
      in the time zone of the browser *)
  toLocaleDateString : TimeValue -> string
}.

(** [export const API = `${BACKEND_URL}/api`] *)
Definition API `{Host} : string := BACKEND_URL ^^ "/api".
Arguments API : simpl never.

(** ** What a handler does to the outside *)

(** The body of a POST. *)
Inductive Body :=
| MoodBody (b_mood b_note b_detection_method : string)
    (* { mood, note, detection_method } *)
| FormData (field : string) (blob : string) (filename : string)
    (* formData.append(field, blob, filename) *).

(** The promises the pages await. *)
Inductive Request :=
| axios_get (url : string)
| axios_post (url : string) (body : Body)
| axios_delete (url : string)
| fetch (src : string)           (* fetch(imageSrc) *)
| response_blob (resp : string)  (* response.blob() *).

(** The shape of the value a promise resolves to, and the data of that
    shape. *)
Inductive Wire := WNone | WMoods | WStats | WDetection | WResponse | WBlob.

Definition payload (w : Wire) : Type :=
  match w with
  | WNone => unit
  | WMoods => list Mood
  | WStats => Stats
  | WDetection => Detection
  | WResponse => string
  | WBlob => string
  end.

Definition Wire_eq_dec (a b : Wire) : {a = b} + {a <> b}.
Proof. decide equality. Defined.

(** A settled promise. *)
Inductive Outcome (A : Type) :=
| Resolved (a : A)
| Rejected (err : string).
Arguments Resolved {A} a.
Arguments Rejected {A} err.

(** Toast texts; the detection toast prints the confidence with
    [toFixed(1)], which is kept as a constructor. *)
Inductive Message :=
| Text (s : string)
| DetectedMsg (e : string) (c : Z)
    (* `Detected: ${emotion} (${confidence.toFixed(1)}% confidence)` *).

Inductive Effect :=
| ToastError (m : Message)
| ToastSuccess (m : Message)
| ConsoleError (label : string) (err : string)
| Issued (rq : Request)                    (* a promise was created *)
| NavigateAfter (ms : Z) (path : string)   (* setTimeout(() => navigate(path), ms) *)
| Download (filename : string)             (* the link with this download attribute was clicked *).

(** ** The handler monad *)

(** How a block ends: normally with a value, or by throwing. *)
Inductive Completion (A : Type) :=
| Normal (a : A)
| Throw (err : string).
Arguments Normal {A} a.
Arguments Throw {A} err.

(** A run of an [async] function on a component with state [S]: it is over
    ([Done]), or it is suspended at an [await] ([Await]) with the state it
    left, what it did so far, the promise awaited and the rest of the
    function, which takes the settlement and the state the component has
    by then. *)
Inductive Async (S A : Type) : Type :=
| Done (s : S) (log : list Effect) (c : Completion A)
| Await (s : S) (log : list Effect) (rq : Request) (w : Wire)
        (k : Outcome (payload w) -> S -> Async S A).
Arguments Done {S A} s log c.
Arguments Await {S A} s log rq w k.

Definition M (S A : Type) : Type := S -> Async S A.

Section Monad.
Context {S : Type}.

Definition prepend {A} (l : list Effect) (a : Async S A) : Async S A :=
  match a with
  | Done s l' c => Done s (l ++ l') c
  | Await s l' rq w k => Await s (l ++ l') rq w k
  end.

Fixpoint bindA {A B} (a : Async S A) (f : A -> M S B) : Async S B :=
  match a with
  | Done s l (Normal x) => prepend l (f x s)
  | Done s l (Throw e) => Done s l (Throw e)
  | Await s l rq w k => Await s l rq w (fun o s' => bindA (k o s') f)
  end.

Definition ret {A} (x : A) : M S A := fun s => Done s [] (Normal x).
Definition bind {A B} (m : M S A) (f : A -> M S B) : M S B :=
  fun s => bindA (m s) f.
Definition throw {A} (e : string) : M S A := fun s => Done s [] (Throw e).

(** [try { body } catch (error) { handler }] *)
Fixpoint catchA {A} (a : Async S A) (h : string -> M S A) : Async S A :=
  match a with
  | Done s l (Normal x) => Done s l (Normal x)
  | Done s l (Throw e) => prepend l (h e s)
  | Await s l rq w k => Await s l rq w (fun o s' => catchA (k o s') h)
  end.

Definition try_catch {A} (body : M S A) (h : string -> M S A) : M S A :=
  fun s => catchA (body s) h.

(** [try { body } finally { fin }]: [fin] runs however [body] ends, and
    [body]'s completion stands unless [fin] throws. *)
Fixpoint finallyA {A} (a : Async S A) (fin : M S unit) : Async S A :=
  match a with
  | Done s l c => prepend l (bindA (fin s) (fun _ s' => Done s' [] c))
  | Await s l rq w k => Await s l rq w (fun o s' => finallyA (k o s') fin)
  end.

Definition try_finally {A} (body : M S A) (fin : M S unit) : M S A :=
  fun s => finallyA (body s) fin.

(** State cells and effects. *)
Definition gets {A} (f : S -> A) : M S A := fun s => Done s [] (Normal (f s)).
Definition modify (f : S -> S) : M S unit := fun s => Done (f s) [] (Normal tt).
Definition emit (e : Effect) : M S unit := fun s => Done s [e] (Normal tt).

(** [await rq]: suspend; on settlement continue with the value, or throw
    the rejection. *)
Definition await (w : Wire) (rq : Request) : M S (payload w) :=
  fun s => Await s [] rq w
    (fun o s' => match o with
                 | Resolved a => Done s' [] (Normal a)
                 | Rejected e => Done s' [] (Throw e)
                 end).

(** Settling the promise a run is suspended at: the rest of the function
    runs on the state the component has by then.  A run that is over, or
    one that waits for data of another shape, is left as it is. *)
Definition settle {A} (a : Async S A) (w : Wire) (o : Outcome (payload w))
    (s' : S) : Async S A :=
  match a with
  | Done _ _ _ => a
  | Await s l rq w' k =>
      match Wire_eq_dec w w' with
      | left e => k (eq_rect w (fun x => Outcome (payload x)) o w' e) s'
      | right _ => a
      end
  end.

(** What a run has done up to where it stands, the promise it created
    included. *)
Definition log_of {A} (a : Async S A) : list Effect :=
  match a with
  | Done _ l _ => l
  | Await _ l rq _ _ => l ++ [Issued rq]
  end.

Definition state_of {A} (a : Async S A) : S :=
  match a with
  | Done s _ _ => s
  | Await s _ _ _ _ => s
  end.

(** The function returned normally (for an [async] function: its promise
    is fulfilled). *)
Definition returned {A} (a : Async S A) : bool :=
  match a with
  | Done _ _ (Normal _) => true
  | _ => false
  end.

(** The function is over with an exception nobody caught. *)
Definition uncaught {A} (a : Async S A) : bool :=
  match a with
  | Done _ _ (Throw _) => true
  | _ => false
  end.
End Monad.

Notation "x <- c1 ;; c2" := (bind c1 (fun x => c2))
  (at level 61, c1 at next level, right associativity).
Notation "c1 ;; c2" := (bind c1 (fun _ => c2))
  (at level 61, right associativity).

(** [toast.error], [toast.success], [console.error]. *)
Definition toast_error {S} (s : string) : M S unit := emit (ToastError (Text s)).
Definition toast_success {S} (s : string) : M S unit := emit (ToastSuccess (Text s)).
Definition console_error {S} (label err : string) : M S unit :=
  emit (ConsoleError label err).

(** JavaScript truthiness of a string: only the empty string is falsy. *)
Definition truthy (s : string) : bool := negb (s =? "")%string.

(** ** String built-ins the pages call *)

(** [s.split('T')[0]]: the text before the first ['T'] (all of [s] when
    there is none). *)
Fixpoint split_T_0 (s : string) : string :=
  match s with
  | EmptyString => EmptyString
  | String c r => if (c =? "T")%char then EmptyString else String c (split_T_0 r)
  end.

(** [s.toUpperCase()] on ASCII text. *)
Definition upper (c : ascii) : ascii :=
  let n := nat_of_ascii c in
  if ((97 <=? n) && (n <=? 122))%nat then ascii_of_nat (n - 32) else c.

Fixpoint toUpperCase (s : string) : string :=
  match s with
  | EmptyString => EmptyString
  | String c r => String (upper c) (toUpperCase r)
  end.

(** [arr.filter(p)] for a callback that may throw: the first exception ends
    the loop and leaves [filter]. *)
Fixpoint Array_filter {A} (p : A -> Completion bool) (l : list A)
    : Completion (list A) :=
  match l with
  | [] => Normal []
  | x :: r =>
      match p x with
      | Throw e => Throw e
      | Normal b =>
          match Array_filter p r with
          | Throw e => Throw e
          | Normal r' => Normal (if b then x :: r' else r')
          end
      end
  end.

(** A synchronous computation that may throw, run inside a handler. *)
Definition lift {S A} (c : Completion A) : M S A := fun s => Done s [] c.

(** ** Statistics (src/unnamed/part_001) *)

Module Statistics.

Record State := { stats : option Stats; loading : bool }.

(** [useState(null)], [useState(true)] *)
Definition init : State := {| stats := None; loading := true |}.

Definition setStats (v : Stats) : M State unit :=
  modify (fun s => {| stats := Some v; loading := loading s |}).
Definition setLoading (b : bool) : M State unit :=
  modify (fun s => {| stats := stats s; loading := b |}).

Section WithHost.
Context `{Host}.

Definition fetchStats : M State unit :=
  try_catch
    (response <- await WStats (axios_get (API ^^ "/moods/stats")) ;;
     setStats response ;;
     setLoading false)
    (fun error =>
       console_error "Error fetching statistics:" error ;;
       setLoading false).
End WithHost.

(** [entries.reduce(f)] without an initial value, on a non-empty array:
    the first element is the initial accumulator. *)
Definition reduce1 {A} (f : A -> A -> A) (first : A) (rest : list A) : A :=
  fold_left f rest first.

(** [Object.values(stats.mood_counts).reduce((sum, count) => sum + count, 0)] *)
Definition getTotalEntries (st : State) : Z :=
  match stats st with
  | None => 0
  | Some v => fold_left (fun sum count => sum + count) (map snd (mood_counts v)) 0
  end.

(** The callback of [entries.reduce]: [curr[1] > max[1] ? curr : max]. *)
Definition larger (max curr : string * Z) : string * Z :=
  if snd curr >? snd max then curr else max.

Definition getMostCommonMood (st : State) : option (string * Z) :=
  match stats st with
  | None => None
  | Some v =>
      let entries := mood_counts v in
      match entries with
      | [] => None
      | first :: rest =>
          let '(mood, count) :=
            reduce1 larger first rest in
          if count >? 0 then Some (mood, count) else None
      end
  end.

(** [MOOD_COLORS] and [MOOD_EMOJIS], objects read as [MOOD_COLORS[mood]]:
    [None] is [undefined], for a mood that is not one of their keys. *)
Definition MOOD_COLORS : list (string * string) :=
  [ ("happy", "#FFD93D"); ("sad", "#6BCB77"); ("angry", "#FF6B6B");
    ("anxious", "#A8DADC"); ("neutral", "#B8B8D1") ].

Definition MOOD_EMOJIS : list (string * string) :=
  [ ("happy", "😊"); ("sad", "😢"); ("angry", "😠");
    ("anxious", "😰"); ("neutral", "😐") ].

Fixpoint prop (o : list (string * string)) (key : string) : option string :=
  match o with
  | [] => None
  | (k, v) :: rest => if (k =? key)%string then Some v else prop rest key
  end.

(** [mood.charAt(0).toUpperCase() + mood.slice(1)] *)
Definition capitalize (mood : string) : string :=
  match mood with
  | EmptyString => EmptyString
  | String c rest => String (upper c) rest
  end.

(** A bar of the bar chart: [{ mood, count, emoji, fill }]. *)
Record Bar := {
  bar_mood : string;
  bar_count : Z;
  bar_emoji : option string;
  bar_fill : option string
}.

Definition getBarChartData (st : State) : list Bar :=
  match stats st with
  | None => []
  | Some v =>
      map (fun '(mood, count) =>
             {| bar_mood := capitalize mood; bar_count := count;
                bar_emoji := prop MOOD_EMOJIS mood;
                bar_fill := prop MOOD_COLORS mood |})
          (mood_counts v)
  end.

(** A slice of the pie chart: [{ name, value, color }]. *)
Record Slice := {
  slice_name : string;
  slice_value : Z;
  slice_color : option string
}.

Definition getPieChartData (st : State) : list Slice :=
  match stats st with
  | None => []
  | Some v =>
      map (fun '(mood, count) =>
             {| slice_name := capitalize mood; slice_value := count;
                slice_color := prop MOOD_COLORS mood |})
          (filter (fun '(_, count) => count >? 0) (mood_counts v))
  end.

(** The state that holds a fetched mapping of counts. *)
Definition counts_state (entries : list (string * Z)) (ld : bool) : State :=
  {| stats := Some {| mood_counts := entries |}; loading := ld |}.

(** What the page shows below its header: the three branches of
    [loading ? ... : totalEntries === 0 ? ... : ...], the last one with the
    total, the most-common card if [mostCommon] is not null, and the data
    of the two charts. *)
Inductive View :=
| loading_statistics
| no_stats_card
| charts (totalEntries : Z) (mostCommon : option (string * Z))
         (bars : list Bar) (slices : list Slice).

Definition render (st : State) : View :=
  let mostCommon := getMostCommonMood st in
  let totalEntries := getTotalEntries st in
  if loading st then loading_statistics
  else if totalEntries =? 0 then no_stats_card
  else charts totalEntries mostCommon (getBarChartData st) (getPieChartData st).

End Statistics.

(** ** Dashboard (src/unnamed/part_000) *)

Module Dashboard.

Record State := {
  todayMood : option Mood;
  recentMoods : list Mood;
  loading : bool
}.

(** [useState(null)], [useState([])], [useState(true)] *)
Definition init : State :=
  {| todayMood := None; recentMoods := []; loading := true |}.

Definition setTodayMood (m : Mood) : M State unit :=
  modify (fun s => {| todayMood := Some m; recentMoods := recentMoods s;
                      loading := loading s |}).
Definition setRecentMoods (l : list Mood) : M State unit :=
  modify (fun s => {| todayMood := todayMood s; recentMoods := l;
                      loading := loading s |}).
Definition setLoading (b : bool) : M State unit :=
  modify (fun s => {| todayMood := todayMood s; recentMoods := recentMoods s;
                      loading := b |}).

Section WithHost.
Context `{Host}.

(** [new Date(x).toISOString().split('T')[0]]; [toISOString] throws a
    [RangeError] on an Invalid Date. *)
Definition isoDate (t : TimeValue) : Completion string :=
  match t with
  | Some ms => Normal (split_T_0 (toISOString ms))
  | None => Throw "RangeError: Invalid time value"
  end.

(** The callback of [moods.filter] in [fetchTodayMood]. *)
Definition isToday (today : string) (m : Mood) : Completion bool :=
  match isoDate (timestamp m) with
  | Normal moodDate => Normal (moodDate =? today)%string
  | Throw e => Throw e
  end.

(** What [isToday] computes for an entry with a valid timestamp: whether
    the date part of its UTC rendering is that of [now]. *)
Definition utcToday (now : Z) (m : Mood) : bool :=
  match timestamp m with
  | Some ms => (split_T_0 (toISOString ms) =? split_T_0 (toISOString now))%string
  | None => false
  end.

(** [now] is the time value of [new Date()] on line 43. *)
Definition fetchTodayMood (now : Z) : M State unit :=
  try_catch
    (moods <- await WMoods (axios_get (API ^^ "/moods")) ;;
     let today := split_T_0 (toISOString now) in
     todaysMoods <- lift (Array_filter (isToday today) moods) ;;
     match todaysMoods with
     | first :: _ => setTodayMood first
     | [] => ret tt
     end)
    (fun error => console_error "Error fetching today's mood:" error).

(** [response.data.slice(0, 5)] is [firstn 5]. *)
Definition fetchRecentMoods : M State unit :=
  try_catch
    (data <- await WMoods (axios_get (API ^^ "/moods")) ;;
     setRecentMoods (firstn 5 data) ;;
     setLoading false)
    (fun error =>
       console_error "Error fetching recent moods:" error ;;
       setLoading false).
End WithHost.

(** What the "Today's Mood" card shows: [todayMood ? ... : ...]. *)
Inductive TodayCard :=
| today_mood_display (m : Mood)
| no_mood_today.

Definition renderTodayCard (st : State) : TodayCard :=
  match todayMood st with
  | Some m => today_mood_display m
  | None => no_mood_today
  end.

(** The "Recent Moods" card: [recentMoods.length > 0 && ...]; when it is
    rendered it lists [recentMoods.map(...)], one row per entry. *)
Definition renderRecentMoodsCard (st : State) : option (list Mood) :=
  if (0 <? Z.of_nat (List.length (recentMoods st))) then Some (recentMoods st)
  else None.

End Dashboard.

(** ** History (src/frontend/src/pages/History.jsx) *)

Module History.

(** A plain object used as a dictionary with string keys: its own
    properties in insertion order.  The keys [groupMoodsByDate] uses are
    formatted dates, which name no property of [Object.prototype]. *)
Definition Obj (V : Type) := list (string * V).

(** [acc[key]] *)
Fixpoint obj_get {V} (acc : Obj V) (key : string) : option V :=
  match acc with
  | [] => None
  | (k, v) :: rest => if (k =? key)%string then Some v else obj_get rest key
  end.

(** [acc[key] = v]: an existing property keeps its place, a new one goes
    last. *)
Fixpoint obj_set {V} (acc : Obj V) (key : string) (v : V) : Obj V :=
  match acc with
  | [] => [(key, v)]
  | (k, v0) :: rest =>
      if (k =? key)%string then (k, v) :: rest
      else (k, v0) :: obj_set rest key v
  end.

(** [acc[key].push(x)] on a property that holds an array (the array is
    changed in place). *)
Fixpoint obj_push {A} (acc : Obj (list A)) (key : string) (x : A)
    : Obj (list A) :=
  match acc with
  | [] => []
  | (k, arr) :: rest =>
      if (k =? key)%string then (k, arr ++ [x]) :: rest
      else (k, arr) :: obj_push rest key x
  end.

(** [Object.keys(acc)] *)
Definition keys {V} (acc : Obj V) : list string := map fst acc.

Record State := {
  moods : list Mood;
  loading : bool;
  groupedMoods : Obj (list Mood)
}.

(** [useState([])], [useState(true)], [useState({})] *)
Definition init : State := {| moods := []; loading := true; groupedMoods := [] |}.

Definition setMoods (l : list Mood) : M State unit :=
  modify (fun s => {| moods := l; loading := loading s;
                      groupedMoods := groupedMoods s |}).
Definition setLoading (b : bool) : M State unit :=
  modify (fun s => {| moods := moods s; loading := b;
                      groupedMoods := groupedMoods s |}).
Definition setGroupedMoods (g : Obj (list Mood)) : M State unit :=
  modify (fun s => {| moods := moods s; loading := loading s;
                      groupedMoods := g |}).

Section WithHost.
Context `{Host}.

(** The date key of an entry. *)
Definition dateKey (m : Mood) : string := toLocaleDateString (timestamp m).

(** Whether an entry is filed under the date [d]. *)
Definition onDate (d : string) (m : Mood) : bool := (dateKey m =? d)%string.

(** The callback of [moodData.reduce]. *)
Definition group_step (acc : Obj (list Mood)) (mood : Mood) : Obj (list Mood) :=
  let date := dateKey mood in
  let acc :=
    match obj_get acc date with
    | None => obj_set acc date []      (* if (!acc[date]) acc[date] = [] *)
    | Some _ => acc
    end in
  obj_push acc date mood.

(** [moodData.reduce(..., {})] *)
Definition grouped (moodData : list Mood) : Obj (list Mood) :=
  fold_left group_step moodData [].

Definition groupMoodsByDate (moodData : list Mood) : M State unit :=
  setGroupedMoods (grouped moodData).

Definition fetchMoods : M State unit :=
  try_catch
    (moodData <- await WMoods (axios_get (API ^^ "/moods")) ;;
     setMoods moodData ;;
     groupMoodsByDate moodData ;;
     setLoading false)
    (fun error =>
       console_error "Error fetching moods:" error ;;
       setLoading false).

(** [confirmed] is what [window.confirm] returns.  [fetchMoods()] is
    called without [await], as the last statement of the [try] block;
    [fetchMoods] handles its own failures, so running it in sequence
    gives the same states and effects. *)
Definition handleDelete (confirmed : bool) (moodId : string) : M State unit :=
  if negb confirmed then ret tt
  else
    try_catch
      (await WNone (axios_delete (API ^^ "/moods/" ^^ moodId)) ;;
       toast_success "Mood entry deleted" ;;
       fetchMoods)
      (fun error =>
         console_error "Error deleting mood:" error ;;
         toast_error "Failed to delete mood entry").

(** [now] is the time value of [new Date()] on line 91. *)
Definition handleExport (now : Z) (format : string) : M State unit :=
  try_catch
    (data <- await WBlob (axios_get (API ^^ "/moods/export?format=" ^^ format)) ;;
     emit (Download ("mood_export_" ^^ split_T_0 (toISOString now) ^^ "." ^^ format)) ;;
     toast_success ("Exported as " ^^ toUpperCase format))
    (fun error =>
       console_error "Error exporting data:" error ;;
       toast_error "Failed to export data").

(** The buttons of the page that start a request, with their [onClick]. *)
Inductive Button :=
| export_csv_button
| export_json_button
| delete_mood (m : Mood) (confirmed : bool).

Definition onClick (now : Z) (b : Button) : M State unit :=
  match b with
  | export_csv_button => handleExport now "csv"
  | export_json_button => handleExport now "json"
  | delete_mood m confirmed => handleDelete confirmed (id m)
  end.
End WithHost.

(** The two cells that hold the list agree: [groupedMoods] is the grouping
    of [moods]. *)
Definition consistent `{Host} (st : State) : Prop :=
  groupedMoods st = grouped (moods st).

(** What the page shows below the export buttons: the three branches of
    [loading ? ... : moods.length === 0 ? ... : ...], the last one a card
    per property of [groupedMoods], in the order of [Object.entries]. *)
Inductive View :=
| loading_history
| no_history_card
| date_groups (g : Obj (list Mood)).

Definition render (st : State) : View :=
  if loading st then loading_history
  else if Nat.eqb (List.length (moods st)) 0 then no_history_card
  else date_groups (groupedMoods st).

(** The rows of the cards, top to bottom: [dayMoods.map(...)] for each
    entry of [Object.entries(groupedMoods)]. *)
Definition rows (g : Obj (list Mood)) : list Mood := List.concat (map snd g).

(** The distinct strings of a list, in the order they first occur. *)
Definition first_seen (ks : list string) : list string :=
  fold_left (fun acc k => if existsb (String.eqb k) acc then acc else acc ++ [k])
            ks [].

End History.

(** ** AddMood (src/frontend/src/pages/AddMood.jsx) *)

Module AddMood.

Record MoodOption := { name : string; emoji : string; color : string }.

Definition MOODS : list MoodOption :=
  [ {| name := "happy";   emoji := "😊"; color := "#FFD93D" |};
    {| name := "sad";     emoji := "😢"; color := "#6BCB77" |};
    {| name := "angry";   emoji := "😠"; color := "#FF6B6B" |};
    {| name := "anxious"; emoji := "😰"; color := "#A8DADC" |};
    {| name := "neutral"; emoji := "😐"; color := "#B8B8D1" |} ].

Record State := {
  method : string;               (* "manual" or "camera" *)
  selectedMood : string;
  note : string;
  loading : bool;
  showCamera : bool;
  detectedEmotion : option Detection
}.

Definition init : State :=
  {| method := "manual"; selectedMood := ""; note := ""; loading := false;
     showCamera := false; detectedEmotion := None |}.

Definition setMethod (v : string) : M State unit :=
  modify (fun s => {| method := v; selectedMood := selectedMood s; note := note s;
                      loading := loading s; showCamera := showCamera s;
                      detectedEmotion := detectedEmotion s |}).
Definition setSelectedMood (v : string) : M State unit :=
  modify (fun s => {| method := method s; selectedMood := v; note := note s;
                      loading := loading s; showCamera := showCamera s;
                      detectedEmotion := detectedEmotion s |}).
Definition setNote (v : string) : M State unit :=
  modify (fun s => {| method := method s; selectedMood := selectedMood s; note := v;
                      loading := loading s; showCamera := showCamera s;
                      detectedEmotion := detectedEmotion s |}).
Definition setLoading (v : bool) : M State unit :=
  modify (fun s => {| method := method s; selectedMood := selectedMood s; note := note s;
                      loading := v; showCamera := showCamera s;
                      detectedEmotion := detectedEmotion s |}).
Definition setShowCamera (v : bool) : M State unit :=
  modify (fun s => {| method := method s; selectedMood := selectedMood s; note := note s;
                      loading := loading s; showCamera := v;
                      detectedEmotion := detectedEmotion s |}).
Definition setDetectedEmotion (v : option Detection) : M State unit :=
  modify (fun s => {| method := method s; selectedMood := selectedMood s; note := note s;
                      loading := loading s; showCamera := showCamera s;
                      detectedEmotion := v |}).

(** [webcamRef.current]: [None] while no [Webcam] is mounted, otherwise
    what its [getScreenshot()] returns ([None] for [null]). *)
Definition WebcamRef := option (option string).

Section WithHost.
Context `{Host}.

(** The handlers read [selectedMood] and [note] from the render they
    were created in, that is when they are called. *)
Definition handleManualSubmit : M State unit :=
  selectedMood <- gets selectedMood ;;
  note <- gets note ;;
  if negb (truthy selectedMood) then
    toast_error "Please select a mood"
  else
    setLoading true ;;
    try_finally
      (try_catch
         (await WNone (axios_post (API ^^ "/moods")
                                  (MoodBody selectedMood note "manual")) ;;
          toast_success "Mood tracked successfully!" ;;
          emit (NavigateAfter 1000 "/"))
         (fun error =>
            console_error "Error saving mood:" error ;;
            toast_error "Failed to save mood"))
      (setLoading false).

Definition captureAndDetect (webcamRef : WebcamRef) : M State unit :=
  match webcamRef with
  | None => toast_error "Camera not ready"
  | Some getScreenshot =>
      setLoading true ;;
      try_finally
        (try_catch
           (match getScreenshot with
            | Some imageSrc =>
                if negb (truthy imageSrc) then
                  toast_error "Failed to capture image" ;;
                  setLoading false
                else
                  response <- await WResponse (fetch imageSrc) ;;
                  blob <- await WBlob (response_blob response) ;;
                  result <- await WDetection
                              (axios_post (API ^^ "/moods/detect")
                                          (FormData "file" blob "capture.jpg")) ;;
                  setDetectedEmotion (Some result) ;;
                  setSelectedMood (emotion result) ;;
                  setMethod "camera" ;;
                  setShowCamera false ;;
                  emit (ToastSuccess (DetectedMsg (emotion result) (confidence result)))
            | None =>
                toast_error "Failed to capture image" ;;
                setLoading false
            end)
           (fun error =>
              console_error "Error detecting emotion:" error ;;
              toast_error "Failed to detect emotion. Please try again or select manually."))
        (setLoading false)
  end.

Definition handleCameraSubmit : M State unit :=
  selectedMood <- gets selectedMood ;;
  note <- gets note ;;
  if negb (truthy selectedMood) then
    toast_error "Please detect emotion first"
  else
    setLoading true ;;
    try_finally
      (try_catch
         (await WNone (axios_post (API ^^ "/moods")
                                  (MoodBody selectedMood note "camera")) ;;
          toast_success "Mood tracked successfully!" ;;
          emit (NavigateAfter 1000 "/"))
         (fun error =>
            console_error "Error saving mood:" error ;;
            toast_error "Failed to save mood"))
      (setLoading false).

(** *** The page as a machine: events, what is on screen, steps *)

Inductive Button :=
| manual_method_button
| camera_method_button
| mood_button (i : nat)          (* the i-th of MOODS.map(...) *)
| submit_manual_mood_button
| capture_emotion_button
| retake_photo_button
| submit_camera_mood_button.

(** The [onClick] of each button; [shot] is what [getScreenshot()]
    would return at that moment. *)
Definition webcam_mounted (s : State) : bool :=
  (method s =? "camera")%string && showCamera s.

Definition onClick (shot : option string) (b : Button) : M State unit :=
  match b with
  | manual_method_button =>
      setMethod "manual" ;; setShowCamera false ;; setDetectedEmotion None
  | camera_method_button =>
      setMethod "camera" ;; setShowCamera true ;; setSelectedMood ""
  | mood_button i =>
      match nth_error MOODS i with
      | Some mood => setSelectedMood (name mood)
      | None => ret tt
      end
  | submit_manual_mood_button => handleManualSubmit
  | capture_emotion_button =>
      fun s => captureAndDetect (if webcam_mounted s then Some shot else None) s
  | retake_photo_button =>
      setShowCamera true ;; setDetectedEmotion None ;; setSelectedMood ""
  | submit_camera_mood_button => handleCameraSubmit
  end.

(** A button can be clicked when the JSX renders it and does not
    disable it. *)
Definition clickable (s : State) (b : Button) : bool :=
  let manual_card := (method s =? "manual")%string in
  let camera_card := (method s =? "camera")%string in
  match b with
  | manual_method_button | camera_method_button => true
  | mood_button i => manual_card && (Nat.ltb i (List.length MOODS))
  | submit_manual_mood_button =>
      manual_card && negb (loading s || negb (truthy (selectedMood s)))
  | capture_emotion_button =>
      camera_card && showCamera s && negb (loading s)
  | retake_photo_button =>
      camera_card && negb (showCamera s)
      && match detectedEmotion s with Some _ => true | None => false end
  | submit_camera_mood_button =>
      camera_card && negb (showCamera s)
      && match detectedEmotion s with Some _ => true | None => false end
      && negb (loading s)
  end.

(** A handler suspended at an [await]. *)
Record Task := {
  t_request : Request;
  t_wire : Wire;
  t_rest : Outcome (payload t_wire) -> M State unit
}.

Record Config := { ui : State; pending : list Task }.

Definition start : Config := {| ui := init; pending := [] |}.

Inductive Event :=
| Click (b : Button) (shot : option string)
| ChangeNote (v : string)        (* onChange of either Textarea *)
| Settle (i : nat) (w : Wire) (o : Outcome (payload w))
    (* the promise of the i-th suspended handler settles *).

(** A run that stops is taken into the configuration: the state it
    left, and the rest of the handler if it awaits. *)
Definition absorb (a : Async State unit) (p : list Task) : Config * list Effect :=
  match a with
  | Done s l _ => ({| ui := s; pending := p |}, l)
  | Await s l rq w k =>
      ({| ui := s;
          pending := p ++ [{| t_request := rq; t_wire := w; t_rest := k |}] |},
       l ++ [Issued rq])
  end.

Fixpoint remove_nth {A} (i : nat) (l : list A) : list A :=
  match i, l with
  | _, [] => []
  | O, _ :: r => r
  | S j, x :: r => x :: remove_nth j r
  end.

Definition step (c : Config) (ev : Event) : Config * list Effect :=
  match ev with
  | Click b shot => absorb (onClick shot b (ui c)) (pending c)
  | ChangeNote v => absorb (setNote v (ui c)) (pending c)
  | Settle i w o =>
      match nth_error (pending c) i with
      | None => (c, [])
      | Some t =>
          match Wire_eq_dec w (t_wire t) with
          | left e =>
              absorb (t_rest t (eq_rect w (fun x => Outcome (payload x)) o _ e) (ui c))
                     (remove_nth i (pending c))
          | right _ => (c, [])
          end
      end
  end.

Fixpoint run (c : Config) (evs : list Event) : Config * list Effect :=
  match evs with
  | [] => (c, [])
  | ev :: rest =>
      let '(c1, l1) := step c ev in
      let '(c2, l2) := run c1 rest in
      (c2, l1 ++ l2)
  end.

(** An event can happen in a configuration: the button is on screen and
    enabled, a note field is on screen, or the promise is indeed awaited
    with that shape. *)
Definition possible (c : Config) (ev : Event) : bool :=
  match ev with
  | Click b _ => clickable (ui c) b
  | ChangeNote _ =>
      let s := ui c in
      (method s =? "manual")%string
      || ((method s =? "camera")%string && negb (showCamera s)
          && match detectedEmotion s with Some _ => true | None => false end)
  | Settle i w _ =>
      match nth_error (pending c) i with
      | Some t => if Wire_eq_dec w (t_wire t) then true else false
      | None => false
      end
  end.

Fixpoint realizable (c : Config) (evs : list Event) : bool :=
  match evs with
  | [] => true
  | ev :: rest => possible c ev && realizable (fst (step c ev)) rest
  end.
End WithHost.

(** The mood bodies POSTed to [/api/moods] among some effects. *)
Definition posted_moods `{Host} (l : list Effect) : list (string * string) :=
  flat_map (fun e =>
    match e with
    | Issued (axios_post url (MoodBody m _ d)) =>
        if (url =? API ^^ "/moods")%string then [(m, d)] else []
    | _ => []
    end) l.

(** The emotions the detection endpoint answered with in a history. *)
Definition detected_emotions (evs : list Event) : list string :=
  flat_map (fun ev =>
    match ev with
    | Settle _ WDetection (Resolved d) => [emotion d]
    | _ => []
    end) evs.

(** Who produced the value [selectedMood] holds after a history: the last
    event that wrote it was a mood button ("manual"), a detection result
    ("camera"), or one that cleared it. *)
Fixpoint provenance (acc : option string) (evs : list Event) : option string :=
  match evs with
  | [] => acc
  | Click (mood_button _) _ :: rest => provenance (Some "manual") rest
  | Settle _ WDetection (Resolved _) :: rest => provenance (Some "camera") rest
  | Click camera_method_button _ :: rest => provenance None rest
  | Click retake_photo_button _ :: rest => provenance None rest
  | _ :: rest => provenance acc rest
  end.

(** *** What can be said of the moods the page posts

    [E] stands for the emotions the detection endpoint may answer
    with. *)
Section Posted.
Context `{Host}.
Variable E : list string.

(** One of the five names of [MOODS], or one of the emotions of [E]. *)
Definition good_mood (m : string) : Prop :=
  In m (map name MOODS) \/ In m E.

Definition good_state (s : State) : Prop :=
  selectedMood s = "" \/ good_mood (selectedMood s).

Definition good_log (l : list Effect) : Prop :=
  forall m d, In (m, d) (posted_moods l) -> m <> "" /\ good_mood m.

Definition good_outcome (w : Wire) : Outcome (payload w) -> Prop :=
  match w with
  | WDetection => fun o =>
      match o with
      | Resolved d => In (emotion d) E
      | Rejected _ => True
      end
  | _ => fun _ => True
  end.

(** A run keeps [good_state] and posts only good moods, now and after
    any settlement with a good outcome. *)
Fixpoint safe (a : Async State unit) : Prop :=
  match a with
  | Done s l _ => good_state s /\ good_log l
  | Await s l rq w k =>
      good_state s /\ good_log (l ++ [Issued rq])
      /\ forall o s', good_outcome w o -> good_state s' -> safe (k o s')
  end.

Definition safe_task (t : Task) : Prop :=
  forall o s', good_outcome (t_wire t) o -> good_state s' -> safe (t_rest t o s').

Definition good_config (c : Config) : Prop :=
  good_state (ui c) /\ Forall safe_task (pending c).

Definition event_ok (ev : Event) : Prop :=
  match ev with
  | Settle _ w o => good_outcome w o
  | _ => True
  end.
End Posted.

(** *** What holds along the histories the page allows *)
Section Flow.
Context `{Host}.
Variable E : list string.

(** A detection result on display belongs to the camera card, and the
    selection next to it is that result or has been cleared. *)
Definition detection_kept (s : State) : Prop :=
  (method s = "manual" -> detectedEmotion s = None)
  /\ (forall d, detectedEmotion s = Some d ->
        (selectedMood s = emotion d \/ selectedMood s = "") /\ In (emotion d) E).

(** Every mood posted is tagged "manual" or "camera", and one tagged
    "camera" is an emotion of [E]. *)
Definition tagged_log (l : list Effect) : Prop :=
  forall m d, In (m, d) (posted_moods l) ->
    (d = "manual" \/ d = "camera") /\ (d = "camera" -> In m E).

(** A handler that waits for a promise holds [loading] until it is over. *)
Fixpoint in_flight (a : Async State unit) : Prop :=
  match a with
  | Done s l _ => detection_kept s /\ loading s = false /\ tagged_log l
  | Await s l rq w k =>
      detection_kept s /\ loading s = true /\ tagged_log (l ++ [Issued rq])
      /\ forall o s', good_outcome E w o -> detection_kept s' -> loading s' = true ->
                      in_flight (k o s')
  end.

Definition flight_task (t : Task) : Prop :=
  forall o s', good_outcome E (t_wire t) o -> detection_kept s' -> loading s' = true ->
               in_flight (t_rest t o s').

(** Nothing is awaited and [loading] is off, or one handler is suspended
    and [loading] is on. *)
Definition flow_config (c : Config) : Prop :=
  detection_kept (ui c)
  /\ ((pending c = [] /\ loading (ui c) = false)
      \/ exists t, pending c = [t] /\ loading (ui c) = true /\ flight_task t).

(** What a click does, seen from the state it happens in. *)
Definition click_flow (s : State) (a : Async State unit) : Prop :=
  match a with
  | Done s1 l _ => detection_kept s1 /\ loading s1 = loading s /\ tagged_log l
  | Await s1 l rq w k =>
      loading s = false /\ detection_kept s1 /\ loading s1 = true
      /\ tagged_log (l ++ [Issued rq])
      /\ forall o s', good_outcome E w o -> detection_kept s' -> loading s' = true ->
                      in_flight (k o s')
  end.
End Flow.

End AddMood.

(** ** Everything the user interface starts *)

Inductive Page := PDashboard | PStatistics | PHistory | PAddMood.

Definition PageState (p : Page) : Type :=
  match p with
  | PDashboard => Dashboard.State
  | PStatistics => Statistics.State
  | PHistory => History.State
  | PAddMood => AddMood.State
  end.

(** The calls in the [useEffect] of each page and the [onClick] of each
    button. *)
Inductive Action : Page -> Type :=
| mount_fetchTodayMood (now : Z) : Action PDashboard
| mount_fetchRecentMoods : Action PDashboard
| mount_fetchStats : Action PStatistics
| mount_fetchMoods : Action PHistory
| click_History (now : Z) (b : History.Button) : Action PHistory
| click_AddMood (shot : option string) (b : AddMood.Button) : Action PAddMood.

Definition perform `{Host} {p} (a : Action p) : M (PageState p) unit :=
  match a with
  | mount_fetchTodayMood now => Dashboard.fetchTodayMood now
  | mount_fetchRecentMoods => Dashboard.fetchRecentMoods
  | mount_fetchStats => Statistics.fetchStats
  | mount_fetchMoods => History.fetchMoods
  | click_History now b => History.onClick now b
  | click_AddMood shot b => AddMood.onClick shot b
  end.

(** ** Predicates on runs *)

Section Runs.
Context `{Host} {S : Type}.

(** [issues a rq]: the run creates the promise [rq], now or after some
    settlements of the promises it awaits. *)
Fixpoint issues (a : Async S unit) (rq' : Request) : Prop :=
  match a with
  | Done _ _ _ => False
  | Await _ _ rq w k => rq = rq' \/ exists o s', issues (k o s') rq'
  end.

(** The two page fetches that every page repeats on mount. *)
Definition is_page_fetch (rq : Request) : bool :=
  match rq with
  | axios_get url =>
      (url =? API ^^ "/moods")%string || (url =? API ^^ "/moods/stats")%string
  | _ => false
  end.

Definition has_toast_error (l : list Effect) : Prop :=
  exists m, In (ToastError m) l.

(** A rejection [err] was handled where the call was made: the function
    returned normally, it logged [err] to the console, it created no
    further promise, and it showed an error toast exactly when [toast]
    says so. *)
Definition handled (toast : bool) (err : string) (a : Async S unit) : Prop :=
  exists s l,
    a = Done s l (Normal tt)
    /\ (exists label, In (ConsoleError label err) l)
    /\ (forall rq, ~ In (Issued rq) l)
    /\ (if toast then has_toast_error l else ~ has_toast_error l).

(** [fail_safe policy a]: the run returns normally if nothing is
    rejected, and the rejection of any promise it comes to await is
    [handled], with a toast exactly when [policy] asks for one. *)
Fixpoint fail_safe (policy : Request -> bool) (a : Async S unit) : Prop :=
  match a with
  | Done _ _ (Normal _) => True
  | Done _ _ (Throw _) => False
  | Await _ _ rq w k =>
      (forall err s', handled (policy rq) err (k (Rejected err) s'))
      /\ (forall v s', fail_safe policy (k (Resolved v) s'))
  end.
End Runs.
Arguments is_page_fetch : simpl never.

(** [preserves P a]: the run leaves the component in a state with [P]
    whenever it stops, at an [await] or for good, provided the component
    is in a state with [P] each time the run is resumed. *)
Fixpoint preserves {S} (P : S -> Prop) (a : Async S unit) : Prop :=
  match a with
  | Done s _ _ => P s
  | Await s _ _ _ k => P s /\ forall o s', P s' -> preserves P (k o s')
  end.

(** [ends_in P a]: however the promises the run awaits are settled and
    whatever happens to the state meanwhile, the run is over in a state
    with [P]. *)
Fixpoint ends_in {S} (P : S -> Prop) (a : Async S unit) : Prop :=
  match a with
  | Done s _ _ => P s
  | Await _ _ _ _ k => forall o s', ends_in P (k o s')
  end.

(** The text after the last ['.'] of a file name, if it has one. *)
Fixpoint extname_from (acc : option string) (s : string) : option string :=
  match s with
  | EmptyString => acc
  | String c r =>
      if (c =? ".")%char then extname_from (Some EmptyString) r
      else extname_from (option_map (fun e => e ^^ String c EmptyString) acc) r
  end.

Definition extname (s : string) : option string := extname_from None s.

(** Modelled from the spec: the backend behind [DELETE /api/moods/{id}] and
    [GET /api/moods], which is not part of this repository.  It owns the
    list of entries; the deletion removes the entry with that identifier,
    and the listing answers with the entries it holds. *)
Definition backend_delete (moodId : string) (db : list Mood) : list Mood :=
  filter (fun m => negb (id m =? moodId)%string) db.

(** ** A concrete browser: the [Date] built-ins in a fixed-offset zone *)

Module JSDate.

Definition msPerDay : Z := 86400000.

(** Proleptic Gregorian (year, month, day) of a day number counted from
    1970-01-01. *)
Definition civil (days : Z) : Z * Z * Z :=
  let z := days + 719468 in
  let era := z / 146097 in
  let doe := z - era * 146097 in
  let yoe := (doe - doe / 1460 + doe / 36524 - doe / 146096) / 365 in
  let y := yoe + era * 400 in
  let doy := doe - (365 * yoe + yoe / 4 - yoe / 100) in
  let mp := (5 * doy + 2) / 153 in
  let d := doy - (153 * mp + 2) / 5 + 1 in
  let m := if mp <? 10 then mp + 3 else mp - 9 in
  (if m <=? 2 then y + 1 else y, m, d).

Definition dec (n : Z) : string := NilZero.string_of_uint (N.to_uint (Z.to_N n)).

(** [n] in decimal, padded with zeros to [width] digits. *)
Fixpoint zeros (k : nat) : string :=
  match k with O => EmptyString | S j => String "0" (zeros j) end.
Definition pad (width : nat) (n : Z) : string :=
  let d := dec n in zeros (width - String.length d) ^^ d.

(** [YYYY-MM-DDTHH:mm:ss.sssZ], with the expanded six-digit year outside
    0..9999. *)
Definition toISOString (t : Z) : string :=
  let '(y, m, d) := civil (t / msPerDay) in
  let r := t mod msPerDay in
  let year :=
    if (0 <=? y) && (y <=? 9999) then pad 4 y
    else (if y <? 0 then "-" else "+") ^^ pad 6 (Z.abs y) in
  year ^^ "-" ^^ pad 2 m ^^ "-" ^^ pad 2 d ^^ "T"
    ^^ pad 2 (r / 3600000) ^^ ":" ^^ pad 2 (r / 60000 mod 60) ^^ ":"
    ^^ pad 2 (r / 1000 mod 60) ^^ "." ^^ pad 3 (r mod 1000) ^^ "Z".

Definition monthName (m : Z) : string :=
  nth (Z.to_nat (m - 1))
    ["January"; "February"; "March"; "April"; "May"; "June"; "July";
     "August"; "September"; "October"; "November"; "December"] "".

(** The en-US long date ("January 5, 2024") of [t] in a zone whose local
    time is UTC plus [offset] milliseconds, for years of the common era;
    "Invalid Date" for an Invalid Date. *)
Definition toLocaleDateString (offset : Z) (t : TimeValue) : string :=
  match t with
  | None => "Invalid Date"
  | Some ms =>
      let '(y, m, d) := civil ((ms + offset) / msPerDay) in
      monthName m ^^ " " ^^ dec d ^^ ", " ^^ dec y
  end.

End JSDate.

(** A browser in the zone UTC-05:00, served from [https://moods.example]. *)
Definition eastern : Host :=
  {| BACKEND_URL := "https://moods.example";
     toISOString := JSDate.toISOString;
     toLocaleDateString := JSDate.toLocaleDateString (-5 * 3600000) |}.

(** ** Sample data *)

(** Three entries as [GET /api/moods] lists them, newest first:
    2024-01-03T02:46:40Z, 2024-01-02T02:00:00Z and 2024-01-01T20:00:00Z. *)
Definition entry3 : Mood :=
  {| id := "3"; mood := "neutral"; note := ""; detection_method := "manual";
     timestamp := Some 1704250000000 |}.
Definition entry2 : Mood :=
  {| id := "2"; mood := "sad"; note := "late"; detection_method := "camera";
     timestamp := Some 1704160800000 |}.
Definition entry1 : Mood :=
  {| id := "1"; mood := "happy"; note := ""; detection_method := "manual";
     timestamp := Some 1704139200000 |}.

(** 2024-01-02T02:00:00Z, which is 21:00 on January 1 in the zone of
    [eastern]. *)
Definition evening : Z := 1704160800000.

(** A session on the AddMood page: the user chooses the camera, captures a
    picture, the picture is read and sent, and the detection endpoint
    answers with [e]. *)
Definition detect_session (e : string) : list AddMood.Event :=
  [ AddMood.Click AddMood.camera_method_button None;
    AddMood.Click AddMood.capture_emotion_button (Some "data:image/jpeg;base64,AAAA");
    AddMood.Settle 0 WResponse (Resolved "response");
    AddMood.Settle 0 WBlob (Resolved "blob");
    AddMood.Settle 0 WDetection (Resolved {| emotion := e; confidence := 873 |}) ].

(** ... and then saves the detected mood with the camera card's button. *)
Definition camera_session (e : string) : list AddMood.Event :=
  detect_session e ++ [ AddMood.Click AddMood.submit_camera_mood_button None ].

(** ... or goes back to "Manual Selection" and saves there. *)
Definition switch_session (e : string) : list AddMood.Event :=
  detect_session e
  ++ [ AddMood.Click AddMood.manual_method_button None;
       AddMood.Click AddMood.submit_manual_mood_button None ].

(** The other way round: a mood is picked by hand, then the user goes to
    the camera, detects, and saves there. *)
Definition manual_then_camera_session (e : string) : list AddMood.Event :=
  AddMood.Click (AddMood.mood_button 0) None :: camera_session e.


(** Whether a request goes to the moods API of the backend; the two
    promises that read the captured picture go nowhere. *)
Definition under_api `{Host} (rq : Request) : bool :=
  match rq with
  | axios_get url | axios_delete url | axios_post url _ =>
      String.prefix (API ^^ "/moods") url
  | fetch _ | response_blob _ => true
  end.

(** * Properties *)

(** ** Concrete runs *)

Example toISOString_leap_day :
  JSDate.toISOString 1709164800123 = "2024-02-29T00:00:00.123Z".
Proof. reflexivity. Qed.

Example toISOString_before_epoch :
  JSDate.toISOString (-1) = "1969-12-31T23:59:59.999Z".
Proof. reflexivity. Qed.

Example getMostCommonMood_tie :
  Statistics.getMostCommonMood
    {| Statistics.stats := Some {| mood_counts :=
         [("happy", 2); ("sad", 5); ("angry", 5); ("anxious", 0); ("neutral", 1)] |};
       Statistics.loading := false |} = Some ("sad", 5).
Proof. reflexivity. Qed.

Example getMostCommonMood_before_fetch :
  Statistics.getMostCommonMood Statistics.init = None.
Proof. reflexivity. Qed.

Example getMostCommonMood_zeros :
  Statistics.getMostCommonMood
    {| Statistics.stats := Some {| mood_counts := [("happy", 0); ("sad", 0)] |};
       Statistics.loading := false |} = None.
Proof. reflexivity. Qed.

(** ** Statistics: the most common mood *)

Section MostCommon.
Import Statistics.

(** The reduction returns the first entry that carries the largest count:
    everything before it is strictly smaller, nothing after it is
    larger. *)
Lemma reduce1_first_max (first : string * Z) (rest : list (string * Z)) :
  exists before m c after,
    first :: rest = before ++ (m, c) :: after
    /\ Forall (fun e => snd e < c) before
    /\ Forall (fun e => snd e <= c) after
    /\ reduce1 larger first rest = (m, c).
Proof.
  induction rest as [|x rest IH] using rev_ind.
  - exists [], (fst first), (snd first), []. cbn.
    destruct first; repeat split; constructor.
  - destruct IH as (before & m & c & after & Hsplit & Hlt & Hle & Hred).
    unfold reduce1 in *. rewrite fold_left_app. cbn. rewrite Hred.
    unfold larger at 1. cbn.
    destruct (Z.gtb_spec (snd x) c) as [Hgt|Hngt].
    + exists (first :: rest), (fst x), (snd x), [].
      repeat split.
      * rewrite app_comm_cons. destruct x; reflexivity.
      * rewrite Hsplit. apply Forall_app. split.
        -- eapply Forall_impl; [|exact Hlt]. cbn. intros; lia.
        -- constructor; [cbn; lia|].
           eapply Forall_impl; [|exact Hle]. cbn. intros; lia.
      * constructor.
      * destruct x; reflexivity.
    + exists before, m, c, (after ++ [x]).
      repeat split; trivial.
      * rewrite app_comm_cons, Hsplit, <- app_assoc. reflexivity.
      * apply Forall_app. split; trivial. constructor; [lia|constructor].
Qed.

Lemma getMostCommonMood_unfold (entries : list (string * Z)) (ld : bool) :
  getMostCommonMood {| stats := Some {| mood_counts := entries |}; loading := ld |}
  = match entries with
    | [] => None
    | first :: rest =>
        let r := reduce1 larger first rest in
        if snd r >? 0 then Some r else None
    end.
Proof.
  unfold getMostCommonMood. cbn. destruct entries as [|first rest]; trivial.
  destruct (reduce1 larger first rest); reflexivity.
Qed.

(** C1.  For a mapping of counts (none negative), [getMostCommonMood]
    gives nothing when the mapping is empty or all its counts are zero;
    otherwise it gives the entry [(m, c)] with the largest count, and
    among equal largest counts the first in iteration order: every entry
    before it has a strictly smaller count, no entry after it a larger
    one. *)
Theorem getMostCommonMood_spec (entries : list (string * Z)) (ld : bool) :
  Forall (fun e => 0 <= snd e) entries ->
  let st := {| stats := Some {| mood_counts := entries |}; loading := ld |} in
  ((entries = [] \/ Forall (fun e => snd e = 0) entries) ->
     getMostCommonMood st = None)
  /\ (~ (entries = [] \/ Forall (fun e => snd e = 0) entries) ->
      exists before m c after,
        entries = before ++ (m, c) :: after
        /\ Forall (fun e => snd e < c) before
        /\ Forall (fun e => snd e <= c) after
        /\ getMostCommonMood st = Some (m, c)).
Proof.
  intros Hnn st. subst st. rewrite getMostCommonMood_unfold.
  destruct entries as [|first rest].
  - split; [reflexivity|]. intros Hn. exfalso. apply Hn. left; reflexivity.
  - destruct (reduce1_first_max first rest)
      as (before & m & c & after & Hsplit & Hlt & Hle & Hred).
    cbn zeta. rewrite Hred. cbn [snd].
    assert (Hin : In (m, c) (first :: rest))
      by (rewrite Hsplit; apply in_or_app; right; left; reflexivity).
    split.
    + intros [Hnil|Hzero]; [discriminate|].
      rewrite Forall_forall in Hzero. specialize (Hzero _ Hin). cbn in Hzero.
      subst c. reflexivity.
    + intros Hn. exists before, m, c, after. repeat split; trivial.
      destruct (Z.gtb_spec c 0) as [|Hc]; [reflexivity|].
      exfalso. apply Hn. right.
      rewrite Forall_forall in Hnn |- *. intros e He.
      specialize (Hnn e He).
      assert (snd e <= c).
      { rewrite Hsplit in He. apply in_app_or in He. destruct He as [He|[He|He]].
        - rewrite Forall_forall in Hlt. specialize (Hlt e He). cbn in Hlt. lia.
        - subst e. cbn. lia.
        - rewrite Forall_forall in Hle. exact (Hle e He). }
      lia.
Qed.

Lemma getMostCommonMood_spec_witness :
  let entries := [("happy", 1); ("sad", 3); ("angry", 3)] in
  Forall (fun e => 0 <= snd e) entries
  /\ ~ (entries = [] \/ Forall (fun e => snd e = 0) entries)
  /\ exists before m c after,
        entries = before ++ (m, c) :: after
        /\ Forall (fun e => snd e < c) before
        /\ Forall (fun e => snd e <= c) after
        /\ getMostCommonMood
             {| stats := Some {| mood_counts := entries |}; loading := false |}
           = Some (m, c).
Proof.
  intros entries.
  assert (Hnn : Forall (fun e => 0 <= snd e) entries)
    by (repeat constructor; cbn; lia).
  assert (Hsome : ~ (entries = [] \/ Forall (fun e => snd e = 0) entries)).
  { intros [Hnil|Hzero]; [discriminate|].
    inversion Hzero as [|? ? H1 _]. cbn in H1. discriminate. }
  split; [exact Hnn|]. split; [exact Hsome|].
  exact (proj2 (getMostCommonMood_spec entries false Hnn) Hsome).
Defined.
End MostCommon.

(** ** History: grouping by date *)

Section Grouping.
Import History.
Context `{Host}.

Lemma obj_get_set {V} (acc : Obj V) k v d :
  obj_get (obj_set acc k v) d = if (k =? d)%string then Some v else obj_get acc d.
Proof.
  induction acc as [|[k0 v0] acc IH]; cbn.
  - reflexivity.
  - destruct (String.eqb_spec k0 k) as [->|Hk]; cbn.
    + destruct (String.eqb_spec k d); reflexivity.
    + rewrite IH. destruct (String.eqb_spec k0 d) as [->|]; trivial.
      destruct (String.eqb_spec k d); congruence.
Qed.

Lemma obj_get_push {A} (acc : Obj (list A)) k x d :
  obj_get (obj_push acc k x) d
  = match obj_get acc d with
    | Some arr => Some (if (k =? d)%string then arr ++ [x] else arr)
    | None => None
    end.
Proof.
  induction acc as [|[k0 v0] acc IH]; cbn.
  - reflexivity.
  - destruct (String.eqb_spec k0 k) as [->|Hk]; cbn.
    + destruct (String.eqb_spec k d) as [->|]; trivial.
      destruct (obj_get acc d); trivial.
    + rewrite IH. destruct (String.eqb_spec k0 d) as [->|]; trivial.
      destruct (String.eqb_spec k d); congruence.
Qed.

Lemma keys_push {A} (acc : Obj (list A)) k x : keys (obj_push acc k x) = keys acc.
Proof.
  unfold keys. induction acc as [|[k0 v0] acc IH]; cbn; trivial.
  destruct (k0 =? k)%string; cbn; congruence.
Qed.

Lemma obj_get_None_keys {V} (acc : Obj V) k :
  obj_get acc k = None -> ~ In k (keys acc).
Proof.
  unfold keys. induction acc as [|[k0 v0] acc IH]; cbn; [tauto|].
  destruct (String.eqb_spec k0 k); [discriminate|].
  intros Hn [Heq|Hin]; [congruence|]. exact (IH Hn Hin).
Qed.

Lemma keys_set_new {V} (acc : Obj V) k v :
  obj_get acc k = None -> keys (obj_set acc k v) = keys acc ++ [k].
Proof.
  unfold keys. induction acc as [|[k0 v0] acc IH]; cbn; trivial.
  destruct (String.eqb_spec k0 k); [discriminate|].
  intros Hn. cbn. rewrite (IH Hn). reflexivity.
Qed.

Lemma obj_get_In {V} (acc : Obj V) d b : obj_get acc d = Some b -> In (d, b) acc.
Proof.
  induction acc as [|[k0 v0] acc IH]; cbn; [discriminate|].
  destruct (String.eqb_spec k0 d) as [->|].
  - intros [= ->]. left; reflexivity.
  - intros Hg. right. exact (IH Hg).
Qed.

Lemma In_obj_get {V} (acc : Obj V) d b :
  NoDup (keys acc) -> In (d, b) acc -> obj_get acc d = Some b.
Proof.
  unfold keys. induction acc as [|[k0 v0] acc IH]; cbn; [tauto|].
  intros Hnd. inversion Hnd as [|? ? Hnotin Hnd']; subst.
  intros [[= -> ->]|Hin].
  - rewrite String.eqb_refl. reflexivity.
  - destruct (String.eqb_spec k0 d) as [->|]; [|exact (IH Hnd' Hin)].
    exfalso. apply Hnotin. exact (in_map fst _ _ Hin).
Qed.

(** One step of the reduction: the bucket of the entry's date gets the
    entry at its end, every other bucket stays. *)
Lemma obj_get_group_step acc m d :
  obj_get (group_step acc m) d
  = if (dateKey m =? d)%string
    then Some (match obj_get acc d with Some arr => arr | None => [] end ++ [m])
    else obj_get acc d.
Proof.
  unfold group_step. rewrite obj_get_push.
  destruct (obj_get acc (dateKey m)) eqn:Hg.
  - destruct (String.eqb_spec (dateKey m) d) as [<-|]; [rewrite Hg; reflexivity|].
    destruct (obj_get acc d); reflexivity.
  - rewrite obj_get_set.
    destruct (String.eqb_spec (dateKey m) d) as [<-|]; [rewrite Hg; reflexivity|].
    destruct (obj_get acc d); reflexivity.
Qed.

Lemma keys_group_step acc m : NoDup (keys acc) -> NoDup (keys (group_step acc m)).
Proof.
  intros Hnd. unfold group_step. rewrite keys_push.
  destruct (obj_get acc (dateKey m)) eqn:Hg; trivial.
  rewrite (keys_set_new _ _ _ Hg).
  apply NoDup_rev in Hnd.
  rewrite <- (rev_involutive (keys acc ++ [dateKey m])).
  apply NoDup_rev. rewrite rev_app_distr. cbn.
  constructor; trivial. rewrite <- in_rev. exact (obj_get_None_keys _ _ Hg).
Qed.

Lemma grouped_snoc l m : grouped (l ++ [m]) = group_step (grouped l) m.
Proof. unfold grouped. rewrite fold_left_app. reflexivity. Qed.

(** The bucket of a date holds the entries of that date, in list order;
    a date without entries has no bucket. *)
Lemma obj_get_grouped l d :
  obj_get (grouped l) d
  = match filter (onDate d) l with [] => None | b => Some b end.
Proof.
  induction l as [|m l IH] using rev_ind; [reflexivity|].
  rewrite grouped_snoc, obj_get_group_step, filter_app, IH. cbn [filter].
  change (dateKey m =? d)%string with (onDate d m).
  destruct (onDate d m).
  - destruct (filter (onDate d) l); reflexivity.
  - rewrite app_nil_r. reflexivity.
Qed.

Lemma keys_grouped l : NoDup (keys (grouped l)).
Proof.
  induction l as [|m l IH] using rev_ind; [constructor|].
  rewrite grouped_snoc. apply keys_group_step, IH.
Qed.

Lemma In_grouped l d b :
  In (d, b) (grouped l) <-> b = filter (onDate d) l /\ b <> [].
Proof.
  split.
  - intros Hin. apply (In_obj_get _ _ _ (keys_grouped l)) in Hin.
    rewrite obj_get_grouped in Hin.
    destruct (filter (onDate d) l); [discriminate|].
    injection Hin as <-. split; [reflexivity|discriminate].
  - intros [-> Hne]. apply obj_get_In. rewrite obj_get_grouped.
    destruct (filter (onDate d) l); [contradiction|reflexivity].
Qed.

Lemma grouped_bucket l d b m :
  In (d, b) (grouped l) -> In m b -> d = dateKey m /\ In m l.
Proof.
  intros Hin Hm. apply In_grouped in Hin. destruct Hin as [-> _].
  apply filter_In in Hm. destruct Hm as [Hm Hd]. unfold onDate in Hd.
  apply String.eqb_eq in Hd. auto.
Qed.

(** C2.  [groupMoodsByDate] partitions the list it is given: the buckets
    have distinct dates; every entry of the list is in the bucket of its
    own local date string; an entry found in a bucket is an entry of the
    list and the bucket is the one of its date, so it is in no second
    bucket; each bucket is the sublist of the entries of its date, in
    list order; and the empty list gives the empty object. *)
Theorem groupMoodsByDate_partition (moodData : list Mood) (s : State) :
  let g := groupedMoods (state_of (groupMoodsByDate moodData s)) in
  NoDup (map fst g)
  /\ (forall m, In m moodData -> exists b, In (dateKey m, b) g /\ In m b)
  /\ (forall d b m, In (d, b) g -> In m b -> d = dateKey m /\ In m moodData)
  /\ (forall d1 b1 d2 b2 m,
        In (d1, b1) g -> In (d2, b2) g -> In m b1 -> In m b2 ->
        (d1, b1) = (d2, b2))
  /\ (forall d b, In (d, b) g ->
        b = filter (fun m => (dateKey m =? d)%string) moodData)
  /\ groupedMoods (state_of (groupMoodsByDate [] s)) = [].
Proof.
  cbn. fold (onDate).
  pose proof (grouped_bucket moodData) as Hbucket.
  repeat split.
  - apply keys_grouped.
  - intros m Hm. exists (filter (onDate (dateKey m)) moodData).
    assert (Hmb : In m (filter (onDate (dateKey m)) moodData)).
    { apply filter_In. split; trivial. unfold onDate. apply String.eqb_refl. }
    split; trivial. apply In_grouped. split; trivial.
    intros Hnil. rewrite Hnil in Hmb. exact Hmb.
  - eapply Hbucket; eassumption.
  - eapply Hbucket; eassumption.
  - intros d1 b1 d2 b2 m H1 H2 Hm1 Hm2.
    destruct (Hbucket _ _ _ H1 Hm1) as [-> _].
    destruct (Hbucket _ _ _ H2 Hm2) as [-> _].
    apply In_grouped in H1, H2. destruct H1 as [-> _], H2 as [-> _]. reflexivity.
  - intros d b Hin. apply In_grouped in Hin. exact (proj1 Hin).
Qed.
End Grouping.

(** ** AddMood: submitting without a selection *)

(** C3.  With no mood selected, [handleManualSubmit] is over at once: it
    shows the error toast and nothing else, leaves every state cell as it
    was, and never creates a promise, so no POST to [/api/moods] is made. *)
Theorem handleManualSubmit_without_selection `{Host} (s : AddMood.State) :
  AddMood.selectedMood s = "" ->
  AddMood.handleManualSubmit s
    = Done s [ToastError (Text "Please select a mood")] (Normal tt)
  /\ (forall rq, ~ issues (AddMood.handleManualSubmit s) rq).
Proof.
  intros Hsel.
  assert (Hrun : AddMood.handleManualSubmit s
                 = Done s [ToastError (Text "Please select a mood")] (Normal tt)).
  { unfold AddMood.handleManualSubmit, bind, gets. cbn. rewrite Hsel. reflexivity. }
  split; [exact Hrun|]. intros rq. rewrite Hrun. cbn. tauto.
Qed.

Lemma handleManualSubmit_without_selection_witness :
  AddMood.selectedMood AddMood.init = ""
  /\ @AddMood.handleManualSubmit eastern AddMood.init
     = Done AddMood.init [ToastError (Text "Please select a mood")] (Normal tt).
Proof.
  split; [reflexivity|].
  exact (proj1 (@handleManualSubmit_without_selection eastern AddMood.init eq_refl)).
Defined.

(** ** Dashboard: the recent moods *)

Lemma fetchRecentMoods_resolved `{Host} (data : list Mood) (s s' : Dashboard.State) :
  settle (Dashboard.fetchRecentMoods s) WMoods (Resolved data) s'
  = Done {| Dashboard.todayMood := Dashboard.todayMood s';
            Dashboard.recentMoods := firstn 5 data;
            Dashboard.loading := false |} [] (Normal tt).
Proof. reflexivity. Qed.

(** C10.  Once the list is fetched, [recentMoods] is its prefix of length
    [min 5 (length data)], and the card is rendered, with one row per entry
    of that prefix in order, exactly when the prefix is not empty. *)
Theorem fetchRecentMoods_first_five `{Host}
    (data : list Mood) (s s' : Dashboard.State) :
  let after := settle (Dashboard.fetchRecentMoods s) WMoods (Resolved data) s' in
  let shown := Dashboard.recentMoods (state_of after) in
  returned after = true
  /\ (exists rest, data = shown ++ rest)
  /\ List.length shown = Nat.min 5 (List.length data)
  /\ Dashboard.renderRecentMoodsCard (state_of after)
     = match shown with [] => None | _ => Some shown end.
Proof.
  intros after shown. subst shown after. rewrite fetchRecentMoods_resolved.
  cbn [state_of returned Dashboard.recentMoods]. repeat split.
  - exists (skipn 5 data). symmetry. apply firstn_skipn.
  - apply length_firstn.
  - unfold Dashboard.renderRecentMoodsCard. cbn [Dashboard.recentMoods].
    destruct (firstn 5 data); reflexivity.
Qed.

(** ** History: export *)

Lemma append_inj_l (a x y : string) : a ^^ x = a ^^ y -> x = y.
Proof.
  induction a as [|c a IH]; cbn; [trivial|].
  intros [= Heq]. exact (IH Heq).
Qed.

(** The scan for the extension goes through a concatenation part by part,
    and a dot forgets whatever precedes it. *)
Lemma extname_from_app (a r : string) (acc : option string) :
  extname_from acc (a ^^ r) = extname_from (extname_from acc a) r.
Proof.
  revert acc. induction a as [|c a IH]; intros acc; cbn.
  - reflexivity.
  - destruct (c =? ".")%char; apply IH.
Qed.

Lemma extname_from_dot (ext : string) (acc : option string) :
  extname_from acc ("." ^^ ext) = extname_from (Some "") ext.
Proof. reflexivity. Qed.

Lemma handleExport_resolved `{Host} (now : Z) (format data : string)
    (s s' : History.State) :
  settle (History.handleExport now format s) WBlob (Resolved data) s'
  = Done s'
      [Download ("mood_export_" ^^ split_T_0 (toISOString now) ^^ "." ^^ format);
       ToastSuccess (Text ("Exported as " ^^ toUpperCase format))]
      (Normal tt).
Proof. reflexivity. Qed.

(** Cancelling the common prefix of two request URLs. *)
Ltac url_eq H :=
  apply append_inj_l in H; cbn in H; try discriminate H.

(** The handlers and the operations of the monad, to be unfolded when a
    run is followed step by step. *)
Create HintDb handlers.
#[local] Hint Unfold
  Dashboard.fetchTodayMood Dashboard.fetchRecentMoods Statistics.fetchStats
  History.fetchMoods History.handleDelete History.handleExport History.onClick
  History.groupMoodsByDate
  AddMood.handleManualSubmit AddMood.handleCameraSubmit AddMood.captureAndDetect
  AddMood.onClick
  bind try_catch try_finally ret throw gets modify emit await lift
  toast_error toast_success console_error : handlers.

(** Taking [issues a rq] apart along the run [a]: the hypothesis ends as
    an equation between the promise created and [rq]. *)
Ltac issued H :=
  autounfold with handlers in H; cbn in H;
  repeat match type of H with
         | False => contradiction
         | _ \/ _ => destruct H as [H|H]
         | exists _, _ => destruct H as [? H]
         | context [match ?x with _ => _ end] => is_var x; destruct x; cbn in H
         | context [match ?x with _ => _ end] =>
             lazymatch x with
             | context [match _ with _ => _ end] => fail
             | _ => destruct x; cbn in H
             end
         end.

(** C7.  For [f] either "csv" or "json", [handleExport f] requests
    [GET /api/moods/export?format=f] as its first and only promise, and on
    success the file it downloads is named [mood_export_<date>.f]: its
    extension is [f].  Nothing the user interface can start, on any page,
    requests the export endpoint with another format. *)
Theorem handleExport_format `{Host} :
  (forall (now : Z) (f : string) (s : History.State),
      f = "csv" \/ f = "json" ->
      log_of (History.handleExport now f s)
        = [Issued (axios_get (API ^^ "/moods/export?format=" ^^ f))]
      /\ forall data s',
           let after := settle (History.handleExport now f s) WBlob (Resolved data) s' in
           returned after = true
           /\ exists name,
                In (Download name) (log_of after)
                /\ (forall name', In (Download name') (log_of after) -> name' = name)
                /\ name = "mood_export_" ^^ split_T_0 (toISOString now) ^^ "." ^^ f
                /\ extname name = Some f)
  /\ (forall (p : Page) (a : Action p) (st : PageState p) (f : string),
        issues (perform a st) (axios_get (API ^^ "/moods/export?format=" ^^ f)) ->
        f = "csv" \/ f = "json").
Proof.
  split.
  - intros now f s Hf. split; [reflexivity|].
    intros data s' after. subst after. rewrite handleExport_resolved.
    split; [reflexivity|]. eexists. repeat split.
    + left. reflexivity.
    + intros name' [[= <-]|[Hin|[]]]; [reflexivity|discriminate Hin].
    + unfold extname. rewrite 2!extname_from_app, extname_from_dot.
      destruct Hf as [->| ->]; reflexivity.
  - intros p a st f Hiss.
    destruct a as [now| | | |now b|shot b]; cbn [perform] in Hiss.
    + issued Hiss; injection Hiss as Hu; url_eq Hu.
    + issued Hiss; injection Hiss as Hu; url_eq Hu.
    + issued Hiss; injection Hiss as Hu; url_eq Hu.
    + issued Hiss; injection Hiss as Hu; url_eq Hu.
    + destruct b as [| |m confirmed]; cbn [History.onClick] in Hiss.
      * issued Hiss. injection Hiss as Hu. url_eq Hu. left. congruence.
      * issued Hiss. injection Hiss as Hu. url_eq Hu. right. congruence.
      * issued Hiss; try discriminate Hiss; injection Hiss as Hu; url_eq Hu.
    + destruct b; cbn [AddMood.onClick] in Hiss; issued Hiss; discriminate Hiss.
Qed.

Lemma handleExport_format_witness :
  ("csv" = "csv" \/ "csv" = "json")
  /\ log_of (@History.handleExport eastern 1704139200000 "csv" History.init)
     = [Issued (axios_get "https://moods.example/api/moods/export?format=csv")]
  /\ exists name,
       In (Download name)
          (log_of (settle (@History.handleExport eastern 1704139200000 "csv" History.init)
                          WBlob (Resolved "id,mood") History.init))
       /\ name = "mood_export_2024-01-01.csv"
       /\ extname name = Some "csv".
Proof.
  pose proof (proj1 (@handleExport_format eastern) 1704139200000 "csv" History.init
                    (or_introl eq_refl)) as [Hreq Hres].
  split; [left; reflexivity|]. split; [exact Hreq|].
  destruct (Hres "id,mood" History.init) as (_ & name & Hin & _ & Hname & Hext).
  exists name. split; [exact Hin|]. split; [exact Hname|exact Hext].
Defined.

(** ** History: deletion *)

Lemma fetchMoods_resolved `{Host} (moodData : list Mood) (s s' : History.State) :
  settle (History.fetchMoods s) WMoods (Resolved moodData) s'
  = Done {| History.moods := moodData; History.loading := false;
            History.groupedMoods := History.grouped moodData |} [] (Normal tt).
Proof. reflexivity. Qed.

Lemma backend_delete_gone (moodId : string) (db : list Mood) (m : Mood) :
  In m (backend_delete moodId db) -> id m <> moodId.
Proof.
  unfold backend_delete. intros Hin. apply filter_In in Hin.
  destruct Hin as [_ Hne]. apply negb_true_iff, String.eqb_neq in Hne. exact Hne.
Qed.

(** C8.  The user confirms, [DELETE /api/moods/{id}] succeeds, and the
    refetch that [handleDelete] starts is answered with what the backend
    holds after the deletion.  Then the handler has issued exactly these
    two requests, it returns, and neither [moods] nor any bucket of
    [groupedMoods] has an entry with the deleted identifier. *)
Theorem handleDelete_removes `{Host}
    (moodId : string) (db : list Mood) (s s1 s2 : History.State) :
  let run0 := History.handleDelete true moodId s in
  let run1 := settle run0 WNone (Resolved tt) s1 in
  let run2 := settle run1 WMoods (Resolved (backend_delete moodId db)) s2 in
  log_of run0 = [Issued (axios_delete (API ^^ "/moods/" ^^ moodId))]
  /\ log_of run1 = [ToastSuccess (Text "Mood entry deleted");
                    Issued (axios_get (API ^^ "/moods"))]
  /\ returned run2 = true
  /\ History.moods (state_of run2) = backend_delete moodId db
  /\ (forall m, In m (History.moods (state_of run2)) -> id m <> moodId)
  /\ (forall d b m, In (d, b) (History.groupedMoods (state_of run2)) ->
                    In m b -> id m <> moodId).
Proof.
  cbn. repeat split.
  - intros m. apply backend_delete_gone.
  - intros d b m Hb Hm.
    apply (backend_delete_gone moodId db).
    exact (proj2 (grouped_bucket _ _ _ _ Hb Hm)).
Qed.

(** ** Dashboard: today's mood *)

Section Today.
Import Dashboard.
Context `{Host}.

(** What the rest of [fetchTodayMood] does with the fetched list. *)
Lemma fetchTodayMood_resolved (now : Z) (moods : list Mood) (s s' : State) :
  settle (fetchTodayMood now s) WMoods (Resolved moods) s'
  = match Array_filter (isToday (split_T_0 (toISOString now))) moods with
    | Normal (first :: _) =>
        Done {| todayMood := Some first; recentMoods := recentMoods s';
                loading := loading s' |} [] (Normal tt)
    | Normal [] => Done s' [] (Normal tt)
    | Throw e => Done s' [ConsoleError "Error fetching today's mood:" e] (Normal tt)
    end.
Proof.
  unfold fetchTodayMood, try_catch, bind, lift. cbn.
  destruct (Array_filter _ moods) as [[|first rest]|e]; reflexivity.
Qed.

Lemma Array_filter_valid (now : Z) (moods : list Mood) :
  Forall (fun m => timestamp m <> None) moods ->
  Array_filter (isToday (split_T_0 (toISOString now))) moods
  = Normal (filter (utcToday now) moods).
Proof.
  induction 1 as [|m moods Hm _ IH]; [reflexivity|].
  cbn [Array_filter filter]. rewrite IH. unfold isToday, isoDate, utcToday.
  destruct (timestamp m) as [ms|]; [|contradiction].
  reflexivity.
Qed.

(** With valid timestamps throughout, the card shows the first entry of
    the list whose UTC date is the UTC date of now, and no entry if there
    is none. *)
Lemma fetchTodayMood_utc (now : Z) (moods : list Mood) (s s' : State) :
  Forall (fun m => timestamp m <> None) moods ->
  todayMood s' = None ->
  renderTodayCard (state_of (settle (fetchTodayMood now s) WMoods (Resolved moods) s'))
  = match filter (utcToday now) moods with
    | first :: _ => today_mood_display first
    | [] => no_mood_today
    end.
Proof.
  intros Hvalid Hnone. rewrite fetchTodayMood_resolved, (Array_filter_valid now moods Hvalid).
  destruct (filter (utcToday now) moods); cbn; trivial.
  unfold renderTodayCard. rewrite Hnone. reflexivity.
Qed.
End Today.

(** C9, on a browser five hours west of Greenwich at 21:00 on January 1:
    the list holds an entry made at 15:00 that day, whose local date is
    the local date of now (the key [groupMoodsByDate] files both under),
    yet the card says no mood was tracked today, because the two UTC
    dates differ.  Three hours earlier the same list does show the entry. *)
Theorem fetchTodayMood_evening_west_of_utc :
  let run data now :=
    settle (@Dashboard.fetchTodayMood eastern now Dashboard.init)
           WMoods (Resolved data) Dashboard.init in
  @History.dateKey eastern entry1 = @toLocaleDateString eastern (Some evening)
  /\ JSDate.toISOString 1704139200000 = "2024-01-01T20:00:00.000Z"
  /\ JSDate.toISOString evening = "2024-01-02T02:00:00.000Z"
  /\ Dashboard.renderTodayCard (state_of (run [entry1] evening)) = Dashboard.no_mood_today
  /\ Dashboard.renderTodayCard (state_of (run [entry1] (evening - 3 * 3600000)))
     = Dashboard.today_mood_display entry1.
Proof. repeat split; vm_compute; reflexivity. Qed.

(** ** Failures of network calls *)

Section Failures.
Context `{Host}.

Lemma page_fetch_moods : is_page_fetch (axios_get (API ^^ "/moods")) = true.
Proof. unfold is_page_fetch. rewrite String.eqb_refl. reflexivity. Qed.

Lemma page_fetch_stats : is_page_fetch (axios_get (API ^^ "/moods/stats")) = true.
Proof. unfold is_page_fetch. rewrite String.eqb_refl. apply orb_true_r. Qed.

Lemma page_fetch_export (format : string) :
  is_page_fetch (axios_get (API ^^ "/moods/export?format=" ^^ format)) = false.
Proof.
  unfold is_page_fetch. apply orb_false_intro; apply String.eqb_neq;
    intros Hu; url_eq Hu.
Qed.

(** The rejection of a promise inside a handler, once the run is
    computed: the log is a concrete list. *)
Ltac handled_now :=
  cbn;
  try change (API ^^ "/moods/export?format=csv")
        with (API ^^ "/moods/export?format=" ^^ "csv");
  try change (API ^^ "/moods/export?format=json")
        with (API ^^ "/moods/export?format=" ^^ "json");
  rewrite ?page_fetch_moods, ?page_fetch_stats, ?page_fetch_export;
  cbn;
  eexists; eexists; split; [reflexivity|];
  split; [eexists; cbn; auto 6|];
  split; [let Hin := fresh in intros ? Hin; cbn in Hin; intuition discriminate|];
  first [ now (eexists; cbn; auto 6)
        | let Hin := fresh in intros [? Hin]; cbn in Hin; intuition discriminate ].

Ltac fail_safe_run :=
  autounfold with handlers; cbn;
  repeat match goal with
         | |- True => exact I
         | |- _ /\ _ => split
         | |- forall _, _ => intro
         | |- handled _ _ _ => handled_now
         | |- context [match ?x with _ => _ end] => is_var x; destruct x; cbn
         | |- context [match ?x with _ => _ end] =>
             lazymatch x with
             | context [match _ with _ => _ end] => fail
             | _ => destruct x; cbn
             end
         end.

(** C4, as the code has it.  Whatever the user interface starts, on any
    page and in any state: if nothing is rejected the handler returns
    normally, and when a promise it awaits is rejected the handler
    catches the rejection where the call was made: it returns normally,
    logs the error with [console.error] and creates no further promise
    (nothing is retried).  It shows an error toast exactly when the
    promise was not one of the page fetches, [GET /api/moods] and
    [GET /api/moods/stats]; a failed page fetch shows no toast. *)
Theorem failures_are_caught (p : Page) (a : Action p) (st : PageState p) :
  fail_safe (fun rq => negb (is_page_fetch rq)) (perform a st).
Proof.
  destruct a as [now| | | |now b|shot b]; cbn [perform].
  - fail_safe_run.
  - fail_safe_run.
  - fail_safe_run.
  - fail_safe_run.
  - destruct b; cbn [History.onClick]; fail_safe_run.
  - destruct b; cbn [AddMood.onClick]; fail_safe_run.
Qed.
End Failures.

(** C4 as stated fails for the statistics page: when [GET /api/moods/stats]
    is rejected, [fetchStats] only writes to the console and clears
    [loading]; no toast is shown. *)
Lemma fetchStats_failure_shows_no_toast :
  settle (@Statistics.fetchStats eastern Statistics.init)
         WStats (Rejected "Network Error") Statistics.init
  = Done {| Statistics.stats := None; Statistics.loading := false |}
         [ConsoleError "Error fetching statistics:" "Network Error"] (Normal tt)
  /\ ~ fail_safe (fun _ => true)
         (@perform eastern PStatistics mount_fetchStats Statistics.init).
Proof.
  split; [reflexivity|].
  cbn. intros [Hrej _].
  destruct (Hrej "Network Error" Statistics.init) as (s & l & Heq & _ & _ & m & Hin).
  injection Heq as <- <-. cbn in Hin. intuition discriminate.
Qed.

(** ** AddMood: the moods that are posted *)

Section PostedMoods.
Import AddMood.
Context `{Host}.
Variable E : list string.

Lemma posted_moods_app (l1 l2 : list Effect) :
  posted_moods (l1 ++ l2) = posted_moods l1 ++ posted_moods l2.
Proof. apply flat_map_app. Qed.

Lemma posted_moods_save (m n d : string) :
  posted_moods [Issued (axios_post (API ^^ "/moods") (MoodBody m n d))] = [(m, d)].
Proof. cbn. rewrite String.eqb_refl. reflexivity. Qed.

Lemma good_log_nil : good_log E [].
Proof. intros m d []. Qed.

Lemma good_log_app (l1 l2 : list Effect) :
  good_log E l1 -> good_log E l2 -> good_log E (l1 ++ l2).
Proof.
  intros H1 H2 m d Hin. rewrite posted_moods_app in Hin.
  apply in_app_or in Hin.
  destruct Hin as [Hin|Hin]; [exact (H1 _ _ Hin)|exact (H2 _ _ Hin)].
Qed.

Lemma truthy_nonempty (s : string) : truthy s = true -> s <> "".
Proof. unfold truthy. intros Ht. apply negb_true_iff, String.eqb_neq in Ht. exact Ht. Qed.

(** The POST of a submit handler carries a good mood. *)
Lemma good_log_save (s : State) (n d : string) :
  good_state E s -> truthy (selectedMood s) = true ->
  good_log E ([] ++ [Issued (axios_post (API ^^ "/moods")
                                         (MoodBody (selectedMood s) n d))]).
Proof.
  intros Hs Ht m d' Hin. cbn [app] in Hin. rewrite posted_moods_save in Hin.
  destruct Hin as [[= <- <-]|[]]. apply truthy_nonempty in Ht.
  split; [exact Ht|]. destruct Hs as [Hs|Hs]; [contradiction|exact Hs].
Qed.

Ltac no_post :=
  match goal with
  | |- good_log _ _ =>
      let Hin := fresh in intros ? ? Hin; cbn in Hin; contradiction
  end.

(** Both submit handlers: the test on [selectedMood], then one POST and
    nothing that writes [selectedMood] afterwards. *)
Ltac submit_safe Hs :=
  autounfold with handlers; cbn;
  match goal with
  | |- context [truthy (selectedMood ?s)] =>
      let Ht := fresh "Ht" in
      destruct (truthy (selectedMood s)) eqn:Ht; cbn;
      [ split; [exact Hs|]; split; [exact (good_log_save s _ _ Hs Ht)|];
        let Hs' := fresh "Hs'" in
        intros [[]|?] ? _ Hs'; cbn; (split; [exact Hs'|no_post])
      | split; [exact Hs|no_post] ]
  end.

Lemma handleManualSubmit_safe (s : State) :
  good_state E s -> safe E (handleManualSubmit s).
Proof. intros Hs. submit_safe Hs. Qed.

Lemma handleCameraSubmit_safe (s : State) :
  good_state E s -> safe E (handleCameraSubmit s).
Proof. intros Hs. submit_safe Hs. Qed.

Lemma captureAndDetect_safe (webcamRef : WebcamRef) (s : State) :
  good_state E s -> safe E (captureAndDetect webcamRef s).
Proof.
  intros Hs. unfold captureAndDetect.
  destruct webcamRef as [[imageSrc|]|]; autounfold with handlers; cbn.
  - destruct (truthy imageSrc); cbn.
    + split; [exact Hs|]. split; [no_post|].
      intros [response|e] s1 _ Hs1; cbn; [|split; [exact Hs1|no_post]].
      split; [exact Hs1|]. split; [no_post|].
      intros [blob|e] s2 _ Hs2; cbn; [|split; [exact Hs2|no_post]].
      split; [exact Hs2|]. split; [no_post|].
      intros [result|e] s3 Hout Hs3; cbn; [|split; [exact Hs3|no_post]].
      split; [|no_post]. right. right. exact Hout.
    + split; [exact Hs|no_post].
  - split; [exact Hs|no_post].
  - split; [exact Hs|no_post].
Qed.

Lemma onClick_safe (shot : option string) (b : Button) (s : State) :
  good_state E s -> safe E (onClick shot b s).
Proof.
  intros Hs. destruct b; cbn [onClick].
  - cbn. split; [exact Hs|no_post].
  - cbn. split; [left; reflexivity|no_post].
  - destruct (nth_error MOODS i) as [mood|] eqn:Hi; cbn.
    + split; [|no_post]. right. left.
      change (In (name mood) (map name MOODS)).
      apply in_map. exact (nth_error_In _ _ Hi).
    + split; [exact Hs|no_post].
  - apply handleManualSubmit_safe, Hs.
  - apply captureAndDetect_safe, Hs.
  - cbn. split; [left; reflexivity|no_post].
  - apply handleCameraSubmit_safe, Hs.
Qed.

Lemma absorb_good (a : Async State unit) (p : list Task) :
  safe E a -> Forall (safe_task E) p ->
  good_config E (fst (absorb a p)) /\ good_log E (snd (absorb a p)).
Proof.
  intros Ha Hp. destruct a as [s l c|s l rq w k]; cbn in *.
  - destruct Ha as [Hs Hl]. split; [split; [exact Hs|exact Hp]|exact Hl].
  - destruct Ha as (Hs & Hl & Hk). split; [split; [exact Hs|]|exact Hl].
    apply Forall_app. split; [exact Hp|]. constructor; [|constructor].
    exact Hk.
Qed.

Lemma remove_nth_Forall {A} (P : A -> Prop) (i : nat) (l : list A) :
  Forall P l -> Forall P (remove_nth i l).
Proof.
  intros Hl. revert i. induction Hl as [|x l Hx Hl IH]; intros [|j]; cbn;
    try constructor; auto.
Qed.

Lemma step_good (c : Config) (ev : Event) :
  good_config E c -> event_ok E ev ->
  good_config E (fst (step c ev)) /\ good_log E (snd (step c ev)).
Proof.
  intros [Hs Hp] Hev. destruct ev as [b shot|v|i w o]; cbn [step].
  - apply absorb_good; [apply onClick_safe, Hs|exact Hp].
  - apply absorb_good; [|exact Hp]. cbn. split; [exact Hs|no_post].
  - destruct (nth_error (pending c) i) as [t|] eqn:Hi.
    + destruct (Wire_eq_dec w (t_wire t)) as [e|_].
      * apply absorb_good; [|apply remove_nth_Forall, Hp].
        rewrite Forall_forall in Hp.
        apply (Hp t (nth_error_In _ _ Hi)); [|exact Hs].
        destruct e. exact Hev.
      * split; [split; trivial|apply good_log_nil].
    + split; [split; trivial|apply good_log_nil].
Qed.

Lemma run_good (evs : list Event) (c : Config) :
  good_config E c -> Forall (event_ok E) evs -> good_log E (snd (run c evs)).
Proof.
  revert c. induction evs as [|ev evs IH]; intros c Hc Hevs; cbn [run].
  - apply good_log_nil.
  - inversion Hevs as [|? ? Hev Hrest]; subst.
    destruct (step_good c ev Hc Hev) as [Hc1 Hl1].
    destruct (step c ev) as [c1 l1]. specialize (IH c1 Hc1 Hrest).
    destruct (run c1 evs) as [c2 l2]. cbn in *. apply good_log_app; trivial.
Qed.

Lemma events_ok (evs : list Event) :
  incl (detected_emotions evs) E -> Forall (event_ok E) evs.
Proof.
  induction evs as [|ev evs IH]; intros Hincl; constructor.
  - destruct ev as [b shot|v|i w o]; cbn; trivial.
    destruct w; cbn; trivial. destruct o as [d|e]; trivial.
    apply Hincl. left. reflexivity.
  - apply IH. intros x Hx. apply Hincl.
    unfold detected_emotions. cbn [flat_map]. apply in_or_app. right. exact Hx.
Qed.
End PostedMoods.

(** C5, as the code has it.  In every history of the page (clicks, typing,
    settlements of the awaited promises, in any order), the mood of each
    POST to [/api/moods] is a non-empty string, and it is one of the five
    names of [MOODS] or the emotion of a detection answer received earlier
    in that history: the client passes that emotion on as it came. *)
Theorem posted_mood_is_enumerated_or_detected `{Host}
    (evs : list AddMood.Event) (m d : string) :
  In (m, d) (AddMood.posted_moods (snd (AddMood.run AddMood.start evs))) ->
  m <> ""
  /\ (In m ["happy"; "sad"; "angry"; "anxious"; "neutral"]
      \/ In m (AddMood.detected_emotions evs)).
Proof.
  intros Hin.
  assert (Hgood : AddMood.good_log (AddMood.detected_emotions evs)
                    (snd (AddMood.run AddMood.start evs))).
  { apply run_good.
    - split; [left; reflexivity|constructor].
    - apply events_ok. apply incl_refl. }
  exact (Hgood m d Hin).
Qed.

Lemma posted_mood_is_enumerated_or_detected_witness :
  In ("sad", "camera")
     (@AddMood.posted_moods eastern
        (snd (@AddMood.run eastern AddMood.start (camera_session "sad"))))
  /\ "sad" <> ""
  /\ (In "sad" ["happy"; "sad"; "angry"; "anxious"; "neutral"]
      \/ In "sad" (AddMood.detected_emotions (camera_session "sad"))).
Proof.
  assert (Hin : In ("sad", "camera")
                   (@AddMood.posted_moods eastern
                      (snd (@AddMood.run eastern AddMood.start (camera_session "sad")))))
    by (vm_compute; left; reflexivity).
  split; [exact Hin|].
  exact (@posted_mood_is_enumerated_or_detected eastern _ _ _ Hin).
Defined.

(** C5 as stated fails on the camera path: the session is one the page
    allows, the detection endpoint answers "surprise", and the POST that
    follows carries that mood, which is none of the five. *)
Lemma detected_emotion_is_posted_unchecked :
  @AddMood.realizable eastern AddMood.start (camera_session "surprise") = true
  /\ @AddMood.posted_moods eastern
       (snd (@AddMood.run eastern AddMood.start (camera_session "surprise")))
     = [("surprise", "camera")]
  /\ ~ In "surprise" ["happy"; "sad"; "angry"; "anxious"; "neutral"].
Proof.
  split; [vm_compute; reflexivity|]. split; [vm_compute; reflexivity|].
  cbn. intuition discriminate.
Qed.

(** ** AddMood: the detection method that is recorded *)

(** C6, at the session where the user detects "sad" with the camera, goes
    back to "Manual Selection" and saves: every step is one the page
    allows; the value saved is the one the detection wrote, no mood button
    was clicked; and the only POST records it as "manual".  Switching the
    other way clears the selection, so there the record is right. *)
Theorem manual_submit_after_detection :
  @AddMood.realizable eastern AddMood.start (switch_session "sad") = true
  /\ AddMood.provenance None (switch_session "sad") = Some "camera"
  /\ @AddMood.posted_moods eastern
       (snd (@AddMood.run eastern AddMood.start (switch_session "sad")))
     = [("sad", "manual")]
  /\ @AddMood.realizable eastern AddMood.start (manual_then_camera_session "sad") = true
  /\ AddMood.provenance None (manual_then_camera_session "sad") = Some "camera"
  /\ @AddMood.posted_moods eastern
       (snd (@AddMood.run eastern AddMood.start (manual_then_camera_session "sad")))
     = [("sad", "camera")].
Proof. repeat split; vm_compute; reflexivity. Qed.

(** ** The theorems above at the sample data *)

Lemma groupMoodsByDate_partition_witness :
  let data := [entry3; entry2; entry1] in
  let g := History.groupedMoods
             (state_of (@History.groupMoodsByDate eastern data History.init)) in
  In entry1 data
  /\ (exists b, In (@History.dateKey eastern entry1, b) g /\ In entry1 b)
  /\ g = [("January 2, 2024", [entry3]); ("January 1, 2024", [entry2; entry1])].
Proof.
  intros data g.
  assert (Hin : In entry1 data) by (right; right; left; reflexivity).
  split; [exact Hin|]. split; [|reflexivity].
  exact (proj1 (proj2 (@groupMoodsByDate_partition eastern data History.init))
               entry1 Hin).
Defined.

Lemma handleDelete_removes_witness :
  let db := [entry3; entry2; entry1] in
  let run2 :=
    settle (settle (@History.handleDelete eastern true "2" History.init)
                   WNone (Resolved tt) History.init)
           WMoods (Resolved (backend_delete "2" db)) History.init in
  History.moods (state_of run2) = [entry3; entry1]
  /\ In entry1 (History.moods (state_of run2))
  /\ id entry1 <> "2".
Proof.
  intros db run2.
  assert (Hin : In entry1 (History.moods (state_of run2)))
    by (right; left; reflexivity).
  split; [reflexivity|]. split; [exact Hin|].
  exact (proj1 (proj2 (proj2 (proj2 (proj2
           (@handleDelete_removes eastern "2" db History.init History.init
                                  History.init)))))
               entry1 Hin).
Defined.

(** * Further properties of the pages *)

(** ** Statistics: totals and charts *)

Section Charts.
Import Statistics.

Lemma fold_sum_acc (l : list Z) (a : Z) :
  fold_left (fun sum count => sum + count) l a
  = a + fold_left (fun sum count => sum + count) l 0.
Proof.
  revert a. induction l as [|x l IH]; intros a; cbn; [lia|].
  rewrite (IH (a + x)), (IH x). lia.
Qed.

Lemma total_cons (e : string * Z) (entries : list (string * Z)) (ld : bool) :
  getTotalEntries (counts_state (e :: entries) ld)
  = snd e + getTotalEntries (counts_state entries ld).
Proof. unfold getTotalEntries. cbn. apply fold_sum_acc. Qed.

Lemma total_nonneg (entries : list (string * Z)) (ld : bool) :
  Forall (fun e => 0 <= snd e) entries ->
  0 <= getTotalEntries (counts_state entries ld).
Proof.
  induction 1 as [|e entries He _ IH]; [cbn; lia|]. rewrite total_cons. lia.
Qed.

(** No count exceeds the total. *)
Lemma total_bounds (entries : list (string * Z)) (ld : bool) (e : string * Z) :
  Forall (fun e => 0 <= snd e) entries -> In e entries ->
  snd e <= getTotalEntries (counts_state entries ld).
Proof.
  intros Hnn. induction Hnn as [|e0 entries He Hnn IH]; intros Hin; [destruct Hin|].
  rewrite total_cons. pose proof (total_nonneg entries ld Hnn).
  destruct Hin as [->|Hin]; [lia|]. specialize (IH Hin). lia.
Qed.

Lemma total_zero (entries : list (string * Z)) (ld : bool) :
  Forall (fun e => 0 <= snd e) entries ->
  getTotalEntries (counts_state entries ld) = 0 ->
  Forall (fun e => snd e = 0) entries.
Proof.
  intros Hnn Hz. rewrite Forall_forall in *. intros e He.
  pose proof (total_bounds entries ld e (proj2 (Forall_forall _ _) Hnn) He).
  specialize (Hnn e He). cbn in *. lia.
Qed.
Lemma total_all_zero (entries : list (string * Z)) (ld : bool) :
  Forall (fun e => snd e = 0) entries ->
  getTotalEntries (counts_state entries ld) = 0.
Proof.
  induction 1 as [|e entries He _ IH]; [reflexivity|]. rewrite total_cons. lia.
Qed.

(** What [getMostCommonMood] returns is an entry of the mapping with a
    positive count that no other count exceeds; when it returns nothing, no
    count is positive. *)
Lemma most_common_some (entries : list (string * Z)) (ld : bool) m c :
  getMostCommonMood (counts_state entries ld) = Some (m, c) ->
  In (m, c) entries /\ 0 < c /\ Forall (fun e => snd e <= c) entries.
Proof.
  unfold counts_state. rewrite getMostCommonMood_unfold.
  destruct entries as [|first rest]; [discriminate|].
  destruct (reduce1_first_max first rest)
    as (before & m' & c' & after & Hsplit & Hlt & Hle & Hred).
  cbn zeta. rewrite Hred. cbn [snd].
  destruct (Z.gtb_spec c' 0) as [Hpos|]; [|discriminate].
  intros [= <- <-]. rewrite Hsplit. split; [|split; [lia|]].
  - apply in_or_app. right. left. reflexivity.
  - apply Forall_app. split.
    + eapply Forall_impl; [|exact Hlt]. cbn. intros; lia.
    + constructor; [cbn; lia|exact Hle].
Qed.

Lemma most_common_none (entries : list (string * Z)) (ld : bool) :
  getMostCommonMood (counts_state entries ld) = None ->
  Forall (fun e => snd e <= 0) entries.
Proof.
  unfold counts_state. rewrite getMostCommonMood_unfold.
  destruct entries as [|first rest]; [constructor|].
  destruct (reduce1_first_max first rest)
    as (before & m' & c' & after & Hsplit & Hlt & Hle & Hred).
  cbn zeta. rewrite Hred. cbn [snd].
  destruct (Z.gtb_spec c' 0) as [|Hle0]; [discriminate|].
  intros _. rewrite Hsplit. apply Forall_app. split.
  - eapply Forall_impl; [|exact Hlt]. cbn. intros; lia.
  - constructor; [cbn; lia|].
    eapply Forall_impl; [|exact Hle]. cbn. intros; lia.
Qed.

(** The most-common card and the total agree: with counts that are not
    negative, [getMostCommonMood] is null exactly when [getTotalEntries] is
    0, so whenever the page shows the charts it shows the card too; the
    mood on the card is an entry of the mapping, and its count is positive
    and at most the total. *)
Theorem most_common_iff_total (entries : list (string * Z)) (ld : bool) :
  Forall (fun e => 0 <= snd e) entries ->
  let st := counts_state entries ld in
  (getMostCommonMood st = None <-> getTotalEntries st = 0)
  /\ (forall m c, getMostCommonMood st = Some (m, c) ->
        In (m, c) entries /\ 0 < c <= getTotalEntries st)
  /\ (forall total mostCommon bars slices,
        render st = charts total mostCommon bars slices -> mostCommon <> None).
Proof.
  intros Hnn st. subst st.
  assert (Hiff : getMostCommonMood (counts_state entries ld) = None
                 <-> getTotalEntries (counts_state entries ld) = 0).
  { split.
    - intros Hnone. apply total_all_zero.
      apply most_common_none in Hnone. rewrite Forall_forall in *.
      intros e He. specialize (Hnn e He). specialize (Hnone e He). cbn in *. lia.
    - intros Hz. apply (total_zero entries ld Hnn) in Hz.
      destruct (getMostCommonMood (counts_state entries ld)) as [[m c]|] eqn:Hmc;
        [|reflexivity].
      apply most_common_some in Hmc. destruct Hmc as (Hin & Hpos & _).
      rewrite Forall_forall in Hz. specialize (Hz _ Hin). cbn in Hz. lia. }
  split; [exact Hiff|]. split.
  - intros m c Hmc. apply most_common_some in Hmc.
    destruct Hmc as (Hin & Hpos & _). split; [exact Hin|]. split; [exact Hpos|].
    exact (total_bounds entries ld (m, c) Hnn Hin).
  - intros total mostCommon bars slices. unfold render.
    destruct (loading (counts_state entries ld)); [discriminate|].
    destruct (Z.eqb_spec (getTotalEntries (counts_state entries ld)) 0) as [|Hne];
      [discriminate|].
    intros [= _ <- _ _] Hnone. apply Hne, Hiff, Hnone.
Qed.

Lemma most_common_iff_total_witness :
  let entries := [("happy", 2); ("sad", 0); ("angry", 3)] in
  Forall (fun e => 0 <= snd e) entries
  /\ getMostCommonMood (counts_state entries false) = Some ("angry", 3)
  /\ In ("angry", 3) entries
  /\ 0 < 3 <= getTotalEntries (counts_state entries false).
Proof.
  intros entries.
  assert (Hnn : Forall (fun e => 0 <= snd e) entries)
    by (repeat constructor; cbn; lia).
  split; [exact Hnn|]. split; [reflexivity|].
  exact (proj1 (proj2 (most_common_iff_total entries false Hnn))
               "angry" 3 eq_refl).
Defined.

Lemma bars_cons mood count (entries : list (string * Z)) (ld : bool) :
  exists b, getBarChartData (counts_state ((mood, count) :: entries) ld)
            = b :: getBarChartData (counts_state entries ld)
            /\ bar_mood b = capitalize mood /\ bar_count b = count.
Proof. eexists. repeat split. Qed.

Lemma pie_cons mood count (entries : list (string * Z)) (ld : bool) :
  (0 < count ->
   exists sl, getPieChartData (counts_state ((mood, count) :: entries) ld)
              = sl :: getPieChartData (counts_state entries ld)
              /\ slice_name sl = capitalize mood /\ slice_value sl = count)
  /\ (count <= 0 ->
      getPieChartData (counts_state ((mood, count) :: entries) ld)
      = getPieChartData (counts_state entries ld)).
Proof.
  unfold getPieChartData. cbn [counts_state stats mood_counts filter].
  destruct (Z.gtb_spec count 0); split; intros; try lia.
  - eexists. repeat split.
  - reflexivity.
Qed.


(** The pie has a slice for each mood with a positive count and for no
    other, in the order of the mapping; with counts that are not negative
    the slices add up to the total, so the pie is empty only when the page
    shows the no-data card instead. *)
Theorem pie_slices (entries : list (string * Z)) (ld : bool) :
  Forall (fun e => 0 <= snd e) entries ->
  let st := counts_state entries ld in
  map (fun sl => (slice_name sl, slice_value sl)) (getPieChartData st)
  = map (fun b => (bar_mood b, bar_count b))
        (filter (fun b => bar_count b >? 0) (getBarChartData st))
  /\ Forall (fun sl => 0 < slice_value sl) (getPieChartData st)
  /\ fold_right Z.add 0 (map slice_value (getPieChartData st)) = getTotalEntries st
  /\ (getPieChartData st = [] <-> getTotalEntries st = 0).
Proof.
  intros Hnn. cbn zeta.
  assert (Hmain :
    map (fun sl => (slice_name sl, slice_value sl)) (getPieChartData (counts_state entries ld))
    = map (fun b => (bar_mood b, bar_count b))
          (filter (fun b => bar_count b >? 0) (getBarChartData (counts_state entries ld)))
    /\ Forall (fun sl => 0 < slice_value sl) (getPieChartData (counts_state entries ld))
    /\ fold_right Z.add 0 (map slice_value (getPieChartData (counts_state entries ld)))
       = getTotalEntries (counts_state entries ld)).
  { induction Hnn as [|[mood count] entries He Hnn (IH1 & IH2 & IH3)].
    - repeat split. constructor.
    - destruct (bars_cons mood count entries ld) as (b & -> & Hm & Hc).
      rewrite total_cons. cbn [filter snd]. rewrite Hc. cbn in He.
      destruct (Z.gtb_spec count 0) as [Hpos|Hle].
      + destruct (proj1 (pie_cons mood count entries ld) Hpos) as (sl & -> & Hn & Hv).
        cbn [map fold_right]. rewrite IH3, IH1, Hn, Hv, Hm, Hc.
        repeat split. constructor; [lia|exact IH2].
      + rewrite (proj2 (pie_cons mood count entries ld) Hle).
        rewrite IH3, IH1. repeat split; [exact IH2|lia]. }
  destruct Hmain as (H1 & H2 & H3). repeat split; trivial.
  - intros Hnil. rewrite <- H3, Hnil. reflexivity.
  - intros Hz. destruct (getPieChartData (counts_state entries ld)) as [|sl rest] eqn:Hpie;
      [reflexivity|].
    exfalso. rewrite Hz in H3. inversion H2 as [|? ? Hsl Hrest]; subst.
    assert (0 <= fold_right Z.add 0 (map slice_value rest)).
    { clear -Hrest. induction Hrest as [|x l Hx _ IH]; cbn [map fold_right]; lia. }
    cbn [map fold_right] in H3. lia.
Qed.

Lemma pie_slices_witness :
  let entries := [("happy", 2); ("sad", 0); ("angry", 3)] in
  Forall (fun e => 0 <= snd e) entries
  /\ map (fun sl => (slice_name sl, slice_value sl))
         (getPieChartData (counts_state entries false))
     = [("Happy", 2); ("Angry", 3)]
  /\ fold_right Z.add 0 (map slice_value (getPieChartData (counts_state entries false)))
     = getTotalEntries (counts_state entries false).
Proof.
  intros entries.
  assert (Hnn : Forall (fun e => 0 <= snd e) entries)
    by (repeat constructor; cbn; lia).
  split; [exact Hnn|]. split; [reflexivity|].
  exact (proj1 (proj2 (proj2 (pie_slices entries false Hnn)))).
Defined.
End Charts.

(** ** A page fetch that fails on mount *)

Lemma fetchStats_rejected `{Host} (err : string) (s s' : Statistics.State) :
  settle (Statistics.fetchStats s) WStats (Rejected err) s'
  = Done {| Statistics.stats := Statistics.stats s'; Statistics.loading := false |}
         [ConsoleError "Error fetching statistics:" err] (Normal tt).
Proof. reflexivity. Qed.

Lemma fetchMoods_rejected `{Host} (err : string) (s s' : History.State) :
  settle (History.fetchMoods s) WMoods (Rejected err) s'
  = Done {| History.moods := History.moods s'; History.loading := false;
            History.groupedMoods := History.groupedMoods s' |}
         [ConsoleError "Error fetching moods:" err] (Normal tt).
Proof. reflexivity. Qed.

Lemma fetchRecentMoods_rejected `{Host} (err : string) (s s' : Dashboard.State) :
  settle (Dashboard.fetchRecentMoods s) WMoods (Rejected err) s'
  = Done {| Dashboard.todayMood := Dashboard.todayMood s';
            Dashboard.recentMoods := Dashboard.recentMoods s';
            Dashboard.loading := false |}
         [ConsoleError "Error fetching recent moods:" err] (Normal tt).
Proof. reflexivity. Qed.

Lemma fetchTodayMood_rejected `{Host} (now : Z) (err : string) (s s' : Dashboard.State) :
  settle (Dashboard.fetchTodayMood now s) WMoods (Rejected err) s'
  = Done s' [ConsoleError "Error fetching today's mood:" err] (Normal tt).
Proof. reflexivity. Qed.

(** When the fetch a page makes on mount is rejected and nothing was
    loaded before, the page leaves its loading view and shows what it shows
    for an empty account: the statistics page its no-data card, the history
    page its no-entries card, the dashboard the invitation to track a mood
    and no recent-moods card. *)
Theorem failed_mount_fetch_shows_empty_page `{Host} (err : string) (now : Z) :
  (forall s s', Statistics.stats s' = None ->
     Statistics.render
       (state_of (settle (Statistics.fetchStats s) WStats (Rejected err) s'))
     = Statistics.no_stats_card)
  /\ (forall s s', History.moods s' = [] ->
        History.render
          (state_of (settle (History.fetchMoods s) WMoods (Rejected err) s'))
        = History.no_history_card)
  /\ (forall s s', Dashboard.recentMoods s' = [] ->
        Dashboard.renderRecentMoodsCard
          (state_of (settle (Dashboard.fetchRecentMoods s) WMoods (Rejected err) s'))
        = None)
  /\ (forall s s', Dashboard.todayMood s' = None ->
        Dashboard.renderTodayCard
          (state_of (settle (Dashboard.fetchTodayMood now s) WMoods (Rejected err) s'))
        = Dashboard.no_mood_today).
Proof.
  repeat split; intros s s' Hempty.
  - rewrite fetchStats_rejected. unfold Statistics.render, Statistics.getTotalEntries.
    cbn. rewrite Hempty. reflexivity.
  - rewrite fetchMoods_rejected. unfold History.render. cbn. rewrite Hempty. reflexivity.
  - rewrite fetchRecentMoods_rejected. unfold Dashboard.renderRecentMoodsCard. cbn.
    rewrite Hempty. reflexivity.
  - rewrite fetchTodayMood_rejected. unfold Dashboard.renderTodayCard. cbn.
    rewrite Hempty. reflexivity.
Qed.

Lemma failed_mount_fetch_shows_empty_page_witness :
  Statistics.stats Statistics.init = None
  /\ Statistics.render
       (state_of (settle (@Statistics.fetchStats eastern Statistics.init)
                         WStats (Rejected "Network Error") Statistics.init))
     = Statistics.no_stats_card
  /\ History.moods History.init = []
  /\ History.render
       (state_of (settle (@History.fetchMoods eastern History.init)
                         WMoods (Rejected "Network Error") History.init))
     = History.no_history_card.
Proof.
  pose proof (@failed_mount_fetch_shows_empty_page eastern "Network Error" evening)
    as (Hstats & Hhist & _).
  split; [reflexivity|].
  split; [exact (Hstats Statistics.init Statistics.init eq_refl)|].
  split; [reflexivity|]. exact (Hhist History.init History.init eq_refl).
Defined.

(** ** Dashboard: the two fetches of the mount effect *)

Section TodayMore.
Import Dashboard.
Context `{Host}.

Lemma Array_filter_invalid (today : string) (moods : list Mood) (m : Mood) :
  In m moods -> timestamp m = None ->
  Array_filter (isToday today) moods = Throw "RangeError: Invalid time value".
Proof.
  intros Hin Hinv. induction moods as [|x moods IH]; [destruct Hin|].
  cbn [Array_filter]. unfold isToday at 1, isoDate.
  destruct (timestamp x) as [ms|] eqn:Hx; [|reflexivity].
  destruct Hin as [->|Hin]; [congruence|]. rewrite (IH Hin). reflexivity.
Qed.

(** One entry whose timestamp does not parse, anywhere in the list, makes
    [fetchTodayMood] give up: [toISOString] throws inside the filter, the
    error goes to the console, and no state cell is written, whatever else
    the list holds. *)
Theorem fetchTodayMood_invalid_timestamp
    (now : Z) (moods : list Mood) (m : Mood) (s s' : State) :
  In m moods -> timestamp m = None ->
  settle (fetchTodayMood now s) WMoods (Resolved moods) s'
  = Done s' [ConsoleError "Error fetching today's mood:"
                          "RangeError: Invalid time value"] (Normal tt).
Proof.
  intros Hin Hinv. rewrite fetchTodayMood_resolved.
  rewrite (Array_filter_invalid _ moods m Hin Hinv). reflexivity.
Qed.

(** The two fetches write different cells, so the order in which their
    answers arrive does not matter: settling the today fetch and then the
    recent fetch leaves the state that the other order leaves, whatever the
    two outcomes are. *)
Theorem mount_fetches_commute
    (now : Z) (oT oR : Outcome (list Mood)) (s0 s : State) :
  let today := fetchTodayMood now s0 in
  let recent := fetchRecentMoods s0 in
  state_of (settle recent WMoods oR (state_of (settle today WMoods oT s)))
  = state_of (settle today WMoods oT (state_of (settle recent WMoods oR s))).
Proof.
  cbn zeta. destruct oT as [moods|eT], oR as [data|eR];
    repeat first [ rewrite fetchTodayMood_resolved
                 | rewrite fetchTodayMood_rejected
                 | rewrite fetchRecentMoods_resolved
                 | rewrite fetchRecentMoods_rejected ];
    try (destruct (Array_filter _ moods) as [[|first rest]|e]); reflexivity.
Qed.
End TodayMore.

Lemma fetchTodayMood_invalid_timestamp_witness :
  let broken := {| id := "9"; mood := "sad"; note := ""; detection_method := "manual";
                   timestamp := None |} in
  In broken [entry2; broken]
  /\ Dashboard.renderTodayCard
       (state_of (settle (@Dashboard.fetchTodayMood eastern evening Dashboard.init)
                         WMoods (Resolved [entry2; broken]) Dashboard.init))
     = Dashboard.no_mood_today.
Proof.
  intros broken.
  assert (Hin : In broken [entry2; broken]) by (right; left; reflexivity).
  split; [exact Hin|].
  rewrite (@fetchTodayMood_invalid_timestamp eastern evening [entry2; broken] broken
             Dashboard.init Dashboard.init Hin eq_refl).
  reflexivity.
Defined.

Lemma fetchTodayMood_utc_witness :
  Forall (fun m => timestamp m <> None) [entry3; entry2; entry1]
  /\ Dashboard.todayMood Dashboard.init = None
  /\ Dashboard.renderTodayCard
       (state_of (settle (@Dashboard.fetchTodayMood eastern evening Dashboard.init)
                         WMoods (Resolved [entry3; entry2; entry1]) Dashboard.init))
     = Dashboard.today_mood_display entry2.
Proof.
  assert (Hvalid : Forall (fun m => timestamp m <> None) [entry3; entry2; entry1])
    by (repeat constructor; discriminate).
  split; [exact Hvalid|]. split; [reflexivity|].
  rewrite (@fetchTodayMood_utc eastern evening [entry3; entry2; entry1]
             Dashboard.init Dashboard.init Hvalid eq_refl).
  reflexivity.
Defined.

(** ** History: the cards and their rows *)

Section GroupOrder.
Import History.
Context `{Host}.

Lemma existsb_keys {V} (acc : Obj V) (k : string) :
  existsb (String.eqb k) (keys acc)
  = match obj_get acc k with Some _ => true | None => false end.
Proof.
  unfold keys. induction acc as [|[k0 v0] acc IH]; cbn; [reflexivity|].
  rewrite (String.eqb_sym k k0). destruct (k0 =? k)%string; [reflexivity|exact IH].
Qed.

Lemma obj_set_new {V} (acc : Obj V) k v :
  obj_get acc k = None -> obj_set acc k v = acc ++ [(k, v)].
Proof.
  induction acc as [|[k0 v0] acc IH]; cbn; [reflexivity|].
  destruct (k0 =? k)%string; [discriminate|]. intros Hn. rewrite (IH Hn). reflexivity.
Qed.

Lemma keys_group_step_order acc m :
  keys (group_step acc m)
  = if existsb (String.eqb (dateKey m)) (keys acc) then keys acc
    else keys acc ++ [dateKey m].
Proof.
  rewrite existsb_keys. unfold group_step. rewrite keys_push.
  destruct (obj_get acc (dateKey m)) eqn:Hg; [reflexivity|].
  apply keys_set_new, Hg.
Qed.

(** The date cards come in the order in which their dates first occur in
    the fetched list: the properties of the grouping, as [Object.entries]
    enumerates them, are the distinct date keys of the entries in order
    of first occurrence. *)
Theorem grouped_order (moodData : list Mood) :
  map fst (grouped moodData) = first_seen (map dateKey moodData).
Proof.
  change (map fst (grouped moodData)) with (keys (grouped moodData)).
  induction moodData as [|m moodData IH] using rev_ind; [reflexivity|].
  rewrite grouped_snoc, keys_group_step_order, map_app. unfold first_seen.
  rewrite fold_left_app. cbn [map fold_left]. fold (first_seen (map dateKey moodData)).
  rewrite IH. reflexivity.
Qed.

Lemma rows_push {A} (acc : Obj (list A)) k (x : A) (arr : list A) :
  obj_get acc k = Some arr ->
  Permutation (List.concat (map snd (obj_push acc k x)))
              (List.concat (map snd acc) ++ [x]).
Proof.
  induction acc as [|[k0 v0] acc IH]; cbn; [discriminate|].
  destruct (k0 =? k)%string; cbn.
  - intros _. rewrite <- !app_assoc. apply Permutation_app_head.
    apply Permutation_app_comm.
  - intros Hg. rewrite <- app_assoc. apply Permutation_app_head. exact (IH Hg).
Qed.

Lemma rows_group_step acc m :
  Permutation (rows (group_step acc m)) (rows acc ++ [m]).
Proof.
  unfold rows, group_step. destruct (obj_get acc (dateKey m)) as [arr|] eqn:Hg.
  - exact (rows_push acc (dateKey m) m arr Hg).
  - assert (Hset : obj_get (obj_set acc (dateKey m) []) (dateKey m) = Some [])
      by (rewrite obj_get_set, String.eqb_refl; reflexivity).
    rewrite (rows_push _ _ m [] Hset), (obj_set_new _ _ _ Hg), map_app, concat_app.
    cbn. rewrite app_nil_r. reflexivity.
Qed.

Lemma rows_grouped (moodData : list Mood) :
  Permutation (rows (grouped moodData)) moodData.
Proof.
  induction moodData as [|m moodData IH] using rev_ind; [reflexivity|].
  rewrite grouped_snoc, rows_group_step. apply Permutation_app_tail, IH.
Qed.

(** Once the list is fetched, the page shows the no-entries card exactly
    when the list is empty; otherwise the rows of its date cards are the
    fetched entries, each once, none added, and they are as many as the
    header counts ([moods.length]). *)
Theorem fetchMoods_rows (moodData : list Mood) (s s' : State) :
  let st := state_of (settle (fetchMoods s) WMoods (Resolved moodData) s') in
  (render st = no_history_card <-> moodData = [])
  /\ (moodData <> [] -> render st = date_groups (groupedMoods st))
  /\ Permutation (rows (groupedMoods st)) moodData
  /\ List.length (rows (groupedMoods st)) = List.length (moods st).
Proof.
  cbn zeta. rewrite fetchMoods_resolved. cbn [state_of groupedMoods moods].
  unfold render. cbn [loading moods groupedMoods].
  pose proof (rows_grouped moodData) as Hperm.
  repeat split; trivial.
  - destruct moodData; [reflexivity|discriminate].
  - intros ->. reflexivity.
  - intros Hne. destruct moodData; [contradiction|reflexivity].
  - apply Permutation_length, Hperm.
Qed.

(** The two cells that hold the list never disagree: if [groupedMoods] is
    the grouping of [moods] before, it is so whenever a handler of the page
    stops, at an [await] or for good, for the fetch on mount and for every
    button, whatever the outcomes of the requests. *)
Theorem history_cells_consistent (s : State) :
  consistent s ->
  preserves consistent (fetchMoods s)
  /\ forall now b, preserves consistent (onClick now b s).
Proof.
  intros Hs.
  assert (Hfetch : forall s0, consistent s0 -> preserves consistent (fetchMoods s0)).
  { intros s0 Hs0. autounfold with handlers. cbn. split; [exact Hs0|].
    intros [moodData|e] s' Hs'; cbn; [reflexivity|exact Hs']. }
  split; [exact (Hfetch s Hs)|].
  intros now [| |m [|]]; autounfold with handlers; cbn.
  - split; [exact Hs|]. intros [data|e] s' Hs'; cbn; exact Hs'.
  - split; [exact Hs|]. intros [data|e] s' Hs'; cbn; exact Hs'.
  - split; [exact Hs|]. intros [[]|e] s' Hs'; cbn; [|exact Hs'].
    split; [exact Hs'|]. intros [moodData|e] s'' Hs''; cbn; [reflexivity|exact Hs''].
  - exact Hs.
Qed.

(** [handleDelete] changes the list only through a refetch that succeeds.
    When the user declines, when the DELETE is rejected, and also when the
    DELETE succeeds but the refetch is rejected, [moods] and [groupedMoods]
    are what they were: in the last case the success toast has been shown
    and the deleted entry is still on the page. *)
Theorem handleDelete_keeps_list (moodId err : string) (s s1 s2 : State) :
  handleDelete false moodId s = Done s [] (Normal tt)
  /\ settle (handleDelete true moodId s) WNone (Rejected err) s1
     = Done s1 [ConsoleError "Error deleting mood:" err;
                ToastError (Text "Failed to delete mood entry")] (Normal tt)
  /\ (let run1 := settle (handleDelete true moodId s) WNone (Resolved tt) s1 in
      let run2 := settle run1 WMoods (Rejected err) s2 in
      In (ToastSuccess (Text "Mood entry deleted")) (log_of run1)
      /\ returned run2 = true
      /\ moods (state_of run2) = moods s2
      /\ groupedMoods (state_of run2) = groupedMoods s2
      /\ ~ has_toast_error (log_of run2)).
Proof.
  split; [reflexivity|]. split; [reflexivity|]. cbn.
  repeat split; auto. intros [m [Hin|[]]]. discriminate Hin.
Qed.
End GroupOrder.

Lemma fetchMoods_rows_witness :
  let st := state_of (settle (@History.fetchMoods eastern History.init)
                             WMoods (Resolved [entry3; entry2; entry1]) History.init) in
  [entry3; entry2; entry1] <> []
  /\ History.render st
     = History.date_groups [("January 2, 2024", [entry3]);
                            ("January 1, 2024", [entry2; entry1])].
Proof.
  intros st. assert (Hne : [entry3; entry2; entry1] <> []) by discriminate.
  split; [exact Hne|].
  exact (proj1 (proj2 (@fetchMoods_rows eastern [entry3; entry2; entry1]
                         History.init History.init)) Hne).
Defined.

Lemma history_cells_consistent_witness :
  @History.consistent eastern History.init
  /\ preserves (@History.consistent eastern)
       (@History.onClick eastern evening (History.delete_mood entry2 true) History.init).
Proof.
  assert (Hinit : @History.consistent eastern History.init) by reflexivity.
  split; [exact Hinit|].
  exact (proj2 (@history_cells_consistent eastern History.init Hinit) evening
               (History.delete_mood entry2 true)).
Defined.

(** ** AddMood: the histories the page allows *)

Section Flow.
Import AddMood.
Context `{Host}.
Variable E : list string.

Ltac no_moods :=
  match goal with
  | |- tagged_log _ _ =>
      let Hin := fresh in intros ? ? Hin; cbn in Hin; contradiction
  end.

Ltac bools :=
  repeat match goal with
         | Hb : _ && _ = true |- _ => apply andb_true_iff in Hb; destruct Hb
         | Hb : negb _ = true |- _ => apply negb_true_iff in Hb
         | Hb : negb _ = false |- _ => apply negb_false_iff in Hb
         | Hb : _ || _ = false |- _ => apply orb_false_iff in Hb; destruct Hb
         | Hb : (_ =? _)%string = true |- _ => apply String.eqb_eq in Hb
         end.

(** The rest of a submit handler, and the rest of [captureAndDetect] after
    a rejection: [loading] is cleared and nothing else is written. *)
Ltac over Hk :=
  cbn; split; [exact Hk|]; split; [reflexivity|no_moods].

Lemma tagged_log_save (m n d : string) :
  (d = "manual" \/ (d = "camera" /\ In m E)) ->
  tagged_log E ([] ++ [Issued (axios_post (API ^^ "/moods") (MoodBody m n d))]).
Proof.
  intros Hd m' d' Hin. cbn [app] in Hin. rewrite posted_moods_save in Hin.
  destruct Hin as [[= <- <-]|[]].
  destruct Hd as [->|[-> Hm]]; (split; [auto|]); [discriminate|auto].
Qed.

Lemma click_flow_ok (shot : option string) (b : Button) (s : State) :
  clickable s b = true -> detection_kept E s -> click_flow E s (onClick shot b s).
Proof.
  intros Hc Hk. pose proof Hk as [HJ HI].
  destruct b; cbn [clickable] in Hc; bools.
  - cbn. unfold detection_kept. cbn.
    split; [split; [reflexivity|intros d Hd; discriminate Hd]|].
    split; [reflexivity|no_moods].
  - cbn. unfold detection_kept. cbn.
    split; [split; [discriminate|]|split; [reflexivity|no_moods]].
    intros d Hd. split; [right; reflexivity|exact (proj2 (HI d Hd))].
  - cbn [onClick]. destruct (nth_error MOODS i) as [mood|]; cbn.
    + unfold detection_kept. cbn.
      split; [split; [exact HJ|]|split; [reflexivity|no_moods]].
      intros d Hd.
      match goal with Hm : method s = "manual" |- _ => rewrite (HJ Hm) in Hd end.
      discriminate Hd.
    + split; [exact Hk|]. split; [reflexivity|no_moods].
  - cbn [onClick]. autounfold with handlers. cbn.
    match goal with Ht : truthy _ = true |- _ => rewrite Ht end. cbn.
    split; [assumption|]. split; [exact Hk|]. split; [reflexivity|].
    split; [apply tagged_log_save; left; reflexivity|].
    intros [[]|e] s' _ Hk' _; over Hk'.
  - cbn [onClick].
    assert (Hcam : webcam_mounted s = true)
      by (unfold webcam_mounted; apply andb_true_iff; split;
          [apply String.eqb_eq|]; assumption).
    rewrite Hcam. autounfold with handlers.
    destruct shot as [imageSrc|]; cbn; [destruct (truthy imageSrc); cbn|].
    + split; [assumption|]. split; [exact Hk|]. split; [reflexivity|].
      split; [no_moods|].
      intros [response|e] s1 _ Hk1 Hl1; [|over Hk1].
      cbn. split; [exact Hk1|]. split; [exact Hl1|]. split; [no_moods|].
      intros [blob|e] s2 _ Hk2 Hl2; [|over Hk2].
      cbn. split; [exact Hk2|]. split; [exact Hl2|]. split; [no_moods|].
      intros [result|e] s3 Hout Hk3 Hl3; [|over Hk3].
      cbn. unfold detection_kept. cbn.
      split; [split; [discriminate|]|split; [reflexivity|no_moods]].
      intros d [= <-]. split; [left; reflexivity|exact Hout].
    + split; [exact Hk|]. split; [symmetry; assumption|no_moods].
    + split; [exact Hk|]. split; [symmetry; assumption|no_moods].
  - cbn. unfold detection_kept. cbn.
    split; [split; [reflexivity|intros d Hd; discriminate Hd]|].
    split; [reflexivity|no_moods].
  - destruct (detectedEmotion s) as [d0|] eqn:Hd0; [|discriminate].
    cbn [onClick]. autounfold with handlers. cbn.
    destruct (truthy (selectedMood s)) eqn:Ht; cbn.
    + split; [assumption|]. split; [exact Hk|]. split; [reflexivity|].
      split.
      * apply tagged_log_save. right. split; [reflexivity|].
        destruct (HI d0 eq_refl) as [[Hsel|Hsel] Hin].
        -- rewrite Hsel. exact Hin.
        -- rewrite Hsel in Ht. discriminate Ht.
      * intros [[]|e] s' _ Hk' _; over Hk'.
    + split; [exact Hk|]. split; [reflexivity|no_moods].
Qed.

Lemma step_flow (c : Config) (ev : Event) :
  flow_config E c -> possible c ev = true -> event_ok E ev ->
  flow_config E (fst (step c ev)) /\ tagged_log E (snd (step c ev)).
Proof.
  intros [Hk Hp] Hposs Hev. destruct ev as [b shot|v|i w o]; cbn [step possible] in *.
  - pose proof (click_flow_ok shot b (ui c) Hposs Hk) as Hcf.
    destruct (onClick shot b (ui c)) as [s1 l cm|s1 l rq w k];
      cbn [absorb fst snd click_flow ui pending] in *.
    + destruct Hcf as (Hk1 & Hl1 & Hlog). split; [|exact Hlog].
      split; [exact Hk1|]. cbn [ui pending]. rewrite Hl1. exact Hp.
    + destruct Hcf as (Hfree & Hk1 & Hl1 & Hlog & Hrest). split; [|exact Hlog].
      split; [exact Hk1|]. cbn [ui pending]. right.
      destruct Hp as [[Hnil _]|(t & _ & Hbusy & _)]; [|congruence].
      rewrite Hnil. eexists. split; [reflexivity|]. split; [exact Hl1|].
      exact Hrest.
  - cbn. split; [|no_moods]. split; [exact Hk|exact Hp].
  - destruct Hp as [[Hnil _]|(t & Hone & Hbusy & Hflight)].
    + rewrite Hnil in Hposs. destruct i; discriminate Hposs.
    + rewrite Hone in *. destruct i as [|i]; [|destruct i; discriminate Hposs].
      cbn [nth_error] in *. destruct (Wire_eq_dec w (t_wire t)) as [e|]; [|discriminate].
      subst w. cbn [eq_rect remove_nth].
      specialize (Hflight o (ui c) Hev Hk Hbusy).
      destruct (t_rest t o (ui c)) as [s1 l cm|s1 l rq w' k];
        cbn [absorb fst snd in_flight ui pending] in *.
      * destruct Hflight as (Hk1 & Hl1 & Hlog). split; [|exact Hlog].
        split; [exact Hk1|]. left. split; [reflexivity|exact Hl1].
      * destruct Hflight as (Hk1 & Hl1 & Hlog & Hrest). split; [|exact Hlog].
        split; [exact Hk1|]. right. eexists. split; [reflexivity|].
        split; [exact Hl1|exact Hrest].
Qed.

Lemma tagged_log_app (l1 l2 : list Effect) :
  tagged_log E l1 -> tagged_log E l2 -> tagged_log E (l1 ++ l2).
Proof.
  intros H1 H2 m d Hin. rewrite posted_moods_app in Hin.
  apply in_app_or in Hin.
  destruct Hin as [Hin|Hin]; [exact (H1 _ _ Hin)|exact (H2 _ _ Hin)].
Qed.

Lemma run_flow (evs : list Event) (c : Config) :
  flow_config E c -> realizable c evs = true -> Forall (event_ok E) evs ->
  flow_config E (fst (run c evs)) /\ tagged_log E (snd (run c evs)).
Proof.
  revert c. induction evs as [|ev evs IH]; intros c Hc Hreal Hevs; cbn [run realizable] in *.
  - split; [exact Hc|]. intros m d [].
  - apply andb_true_iff in Hreal. destruct Hreal as [Hposs Hreal].
    inversion Hevs as [|? ? Hev Hrest]; subst.
    destruct (step_flow c ev Hc Hposs Hev) as [Hc1 Hl1].
    destruct (step c ev) as [c1 l1]. cbn [fst snd] in *.
    destruct (IH c1 Hc1 Hreal Hrest) as [Hc2 Hl2].
    destruct (run c1 evs) as [c2 l2]. cbn [fst snd] in *.
    split; [exact Hc2|apply tagged_log_app; assumption].
Qed.

Lemma start_flow : flow_config E start.
Proof.
  split; [split; [reflexivity|intros d Hd; discriminate Hd]|].
  left. split; reflexivity.
Qed.
End Flow.

(** In every history the page allows (each click on a button that is on
    screen and enabled, each settlement that of a promise awaited), every
    POST to [/api/moods] is tagged "manual" or "camera", and a POST tagged
    "camera" carries the emotion of a detection answer received earlier in
    that history: the camera card never saves a hand-picked mood. *)
Theorem camera_post_is_detected `{Host}
    (evs : list AddMood.Event) (m d : string) :
  AddMood.realizable AddMood.start evs = true ->
  In (m, d) (AddMood.posted_moods (snd (AddMood.run AddMood.start evs))) ->
  (d = "manual" \/ d = "camera")
  /\ (d = "camera" -> In m (AddMood.detected_emotions evs)).
Proof.
  intros Hreal Hin.
  destruct (run_flow (AddMood.detected_emotions evs) evs AddMood.start) as [_ Hlog].
  - apply start_flow.
  - exact Hreal.
  - apply events_ok, incl_refl.
  - exact (Hlog m d Hin).
Qed.


Lemma camera_post_is_detected_witness :
  @AddMood.realizable eastern AddMood.start (manual_then_camera_session "sad") = true
  /\ In ("sad", "camera")
        (@AddMood.posted_moods eastern
           (snd (@AddMood.run eastern AddMood.start (manual_then_camera_session "sad"))))
  /\ In "sad" (AddMood.detected_emotions (manual_then_camera_session "sad")).
Proof.
  assert (Hreal : @AddMood.realizable eastern AddMood.start
                    (manual_then_camera_session "sad") = true)
    by (vm_compute; reflexivity).
  assert (Hin : In ("sad", "camera")
                   (@AddMood.posted_moods eastern
                      (snd (@AddMood.run eastern AddMood.start
                              (manual_then_camera_session "sad")))))
    by (vm_compute; left; reflexivity).
  split; [exact Hreal|]. split; [exact Hin|].
  exact (proj2 (@camera_post_is_detected eastern _ _ _ Hreal Hin) eq_refl).
Defined.


(** ** AddMood: what each handler does with [loading] and with failures *)

Section Handlers.
Import AddMood.
Context `{Host}.

(** Every [onClick] of the page either is over at once, with [loading] as
    it was or cleared, or stops at an [await] with [loading] set; and then,
    however the promises it comes to await are settled and whatever the
    state is by then, the handler is over with [loading] cleared. *)
Theorem loading_released (shot : option string) (b : Button) (s : State) :
  match onClick shot b s with
  | Done s1 _ _ => loading s1 = loading s \/ loading s1 = false
  | Await s1 _ _ _ k =>
      loading s1 = true
      /\ forall o s', ends_in (fun st => loading st = false) (k o s')
  end.
Proof.
  destruct b; cbn [onClick]; autounfold with handlers; cbn; auto.
  - destruct (nth_error MOODS i); cbn; auto.
  - destruct (truthy (selectedMood s)); cbn; auto.
    split; [reflexivity|]. intros [[]|e] s'; reflexivity.
  - destruct (webcam_mounted s); cbn; auto.
    destruct shot as [imageSrc|]; cbn; auto.
    destruct (truthy imageSrc); cbn; auto.
    split; [reflexivity|].
    intros [response|e] s1; cbn; [|reflexivity].
    intros [blob|e] s2; cbn; [|reflexivity].
    intros [result|e] s3; reflexivity.
  - destruct (truthy (selectedMood s)); cbn; auto.
    split; [reflexivity|]. intros [[]|e] s'; reflexivity.
Qed.

(** Without a usable picture [captureAndDetect] asks nothing of the
    network: with no webcam mounted, or a screenshot that is null or
    empty, it shows one error toast, creates no promise and leaves the
    selection, the method and the last detection as they were. *)
Theorem captureAndDetect_without_picture (webcamRef : WebcamRef) (s : State) :
  webcamRef = None \/ webcamRef = Some None \/ webcamRef = Some (Some "") ->
  let run := captureAndDetect webcamRef s in
  returned run = true
  /\ (forall rq, ~ issues run rq)
  /\ (exists msg, log_of run = [ToastError (Text msg)])
  /\ selectedMood (state_of run) = selectedMood s
  /\ method (state_of run) = method s
  /\ detectedEmotion (state_of run) = detectedEmotion s
  /\ showCamera (state_of run) = showCamera s.
Proof.
  intros [->|[->| ->]]; cbn; repeat split; try tauto; eexists; reflexivity.
Qed.

(** The detection pipeline for a picture [imageSrc]: the picture is read
    with [fetch], then as a blob, and that blob is what is posted to
    [/api/moods/detect] as the file "capture.jpg".  If the three promises
    resolve, the page is on the camera card with the camera closed, the
    detected emotion selected and on display, and [loading] cleared; the
    note is kept. *)
Theorem captureAndDetect_pipeline
    (imageSrc response blob : string) (result : Detection) (s s1 s2 s3 : State) :
  truthy imageSrc = true ->
  let run0 := captureAndDetect (Some (Some imageSrc)) s in
  let run1 := settle run0 WResponse (Resolved response) s1 in
  let run2 := settle run1 WBlob (Resolved blob) s2 in
  let run3 := settle run2 WDetection (Resolved result) s3 in
  log_of run0 = [Issued (fetch imageSrc)]
  /\ log_of run1 = [Issued (response_blob response)]
  /\ log_of run2 = [Issued (axios_post (API ^^ "/moods/detect")
                                       (FormData "file" blob "capture.jpg"))]
  /\ run3 = Done {| method := "camera"; selectedMood := emotion result; note := note s3;
                    loading := false; showCamera := false;
                    detectedEmotion := Some result |}
                 [ToastSuccess (DetectedMsg (emotion result) (confidence result))]
                 (Normal tt).
Proof.
  intros Ht. unfold captureAndDetect. autounfold with handlers. cbn.
  rewrite Ht. cbn. repeat split.
Qed.

(** A detection that fails, at whichever of its three promises, writes
    nothing but [loading]: the handler returns with the error logged and
    one error toast, and the selection, the method, the camera view, the
    last detection and the note are those the page had at that moment. *)
Theorem captureAndDetect_failure
    (imageSrc response blob err : string) (s s1 s2 s3 : State) :
  truthy imageSrc = true ->
  let run0 := captureAndDetect (Some (Some imageSrc)) s in
  let run1 := settle run0 WResponse (Resolved response) s1 in
  let run2 := settle run1 WBlob (Resolved blob) s2 in
  let failed (st : State) :=
    Done {| method := method st; selectedMood := selectedMood st; note := note st;
            loading := false; showCamera := showCamera st;
            detectedEmotion := detectedEmotion st |}
         [ConsoleError "Error detecting emotion:" err;
          ToastError (Text "Failed to detect emotion. Please try again or select manually.")]
         (Normal tt) in
  settle run0 WResponse (Rejected err) s1 = failed s1
  /\ settle run1 WBlob (Rejected err) s2 = failed s2
  /\ settle run2 WDetection (Rejected err) s3 = failed s3.
Proof.
  intros Ht. unfold captureAndDetect. autounfold with handlers. cbn.
  rewrite Ht. cbn. repeat split.
Qed.

(** The camera card's Save, with nothing detected: as for the manual one,
    one error toast, no promise, no state cell written. *)
Theorem handleCameraSubmit_without_selection (s : State) :
  selectedMood s = "" ->
  handleCameraSubmit s
    = Done s [ToastError (Text "Please detect emotion first")] (Normal tt)
  /\ (forall rq, ~ issues (handleCameraSubmit s) rq).
Proof.
  intros Hsel.
  assert (Hrun : handleCameraSubmit s
                 = Done s [ToastError (Text "Please detect emotion first")] (Normal tt)).
  { unfold handleCameraSubmit, bind, gets. cbn. rewrite Hsel. reflexivity. }
  split; [exact Hrun|]. intros rq. rewrite Hrun. cbn. tauto.
Qed.

(** A save, by either button, with a mood selected: the POST carries the
    selection and the note the page holds at the click.  The page goes
    back to the dashboard, one second later, only if the POST succeeds; if
    it is rejected the user stays on the page with an error toast.  Either
    way [loading] is cleared and the selection and the note are kept. *)
Theorem submit_outcomes (camera : bool) (err : string) (s s' : State) :
  truthy (selectedMood s) = true ->
  let run := if camera then handleCameraSubmit s else handleManualSubmit s in
  let tag := if camera then "camera" else "manual" in
  let kept := {| method := method s'; selectedMood := selectedMood s'; note := note s';
                 loading := false; showCamera := showCamera s';
                 detectedEmotion := detectedEmotion s' |} in
  log_of run = [Issued (axios_post (API ^^ "/moods")
                                   (MoodBody (selectedMood s) (note s) tag))]
  /\ settle run WNone (Resolved tt) s'
     = Done kept [ToastSuccess (Text "Mood tracked successfully!");
                  NavigateAfter 1000 "/"] (Normal tt)
  /\ settle run WNone (Rejected err) s'
     = Done kept [ConsoleError "Error saving mood:" err;
                  ToastError (Text "Failed to save mood")] (Normal tt).
Proof.
  intros Ht. destruct camera; autounfold with handlers; cbn; rewrite Ht; cbn;
    repeat split.
Qed.
End Handlers.

Lemma captureAndDetect_without_picture_witness :
  let webcamRef : AddMood.WebcamRef := Some None in
  let run := @AddMood.captureAndDetect eastern webcamRef AddMood.init in
  (webcamRef = None \/ webcamRef = Some None \/ webcamRef = Some (Some ""))
  /\ returned run = true
  /\ (forall rq, ~ issues run rq).
Proof.
  intros webcamRef run.
  assert (Hpic : webcamRef = None \/ webcamRef = Some None
                 \/ webcamRef = Some (Some ""))
    by (right; left; reflexivity).
  pose proof (@captureAndDetect_without_picture eastern webcamRef AddMood.init Hpic)
    as (Hret & Hno & _).
  split; [exact Hpic|]. split; [exact Hret|exact Hno].
Defined.

Lemma captureAndDetect_pipeline_witness :
  truthy "data:image/jpeg;base64,AAAA" = true
  /\ log_of (settle (settle (@AddMood.captureAndDetect eastern
                               (Some (Some "data:image/jpeg;base64,AAAA")) AddMood.init)
                            WResponse (Resolved "response") AddMood.init)
                    WBlob (Resolved "bytes") AddMood.init)
     = [Issued (axios_post "https://moods.example/api/moods/detect"
                           (FormData "file" "bytes" "capture.jpg"))].
Proof.
  split; [reflexivity|].
  exact (proj1 (proj2 (proj2
    (@captureAndDetect_pipeline eastern "data:image/jpeg;base64,AAAA" "response" "bytes"
       {| emotion := "sad"; confidence := 873 |}
       AddMood.init AddMood.init AddMood.init AddMood.init eq_refl)))).
Defined.

Lemma captureAndDetect_failure_witness :
  truthy "data:image/jpeg;base64,AAAA" = true
  /\ state_of (settle (@AddMood.captureAndDetect eastern
                         (Some (Some "data:image/jpeg;base64,AAAA")) AddMood.init)
                      WResponse (Rejected "TypeError: Failed to fetch") AddMood.init)
     = AddMood.init.
Proof.
  split; [reflexivity|].
  rewrite (proj1 (@captureAndDetect_failure eastern "data:image/jpeg;base64,AAAA"
                    "response" "bytes" "TypeError: Failed to fetch"
                    AddMood.init AddMood.init AddMood.init AddMood.init eq_refl)).
  reflexivity.
Defined.

Lemma handleCameraSubmit_without_selection_witness :
  AddMood.selectedMood AddMood.init = ""
  /\ @AddMood.handleCameraSubmit eastern AddMood.init
     = Done AddMood.init [ToastError (Text "Please detect emotion first")] (Normal tt).
Proof.
  split; [reflexivity|].
  exact (proj1 (@handleCameraSubmit_without_selection eastern AddMood.init eq_refl)).
Defined.

Lemma submit_outcomes_witness :
  let s := {| AddMood.method := "manual"; AddMood.selectedMood := "happy";
              AddMood.note := "sunny"; AddMood.loading := false;
              AddMood.showCamera := false; AddMood.detectedEmotion := None |} in
  truthy (AddMood.selectedMood s) = true
  /\ log_of (@AddMood.handleManualSubmit eastern s)
     = [Issued (axios_post "https://moods.example/api/moods"
                           (MoodBody "happy" "sunny" "manual"))].
Proof.
  intros s. split; [reflexivity|].
  exact (proj1 (@submit_outcomes eastern false "Network Error" s s eq_refl)).
Defined.

(** ** Where the requests go *)

Lemma prefix_append_same (a b c : string) :
  String.prefix (a ^^ b) (a ^^ c) = String.prefix b c.
Proof.
  induction a as [|x a IH]; cbn; [reflexivity|].
  destruct (ascii_dec x x) as [_|Hne]; [exact IH|contradiction].
Qed.

(** Whatever the user interface starts, on any page and in any state and
    however the promises are settled, every HTTP request made with axios
    goes to a URL that begins with [`${BACKEND_URL}/api/moods`]; the only
    other promises are the two that read the captured picture. *)
Theorem requests_stay_under_api `{Host}
    (p : Page) (a : Action p) (st : PageState p) (rq : Request) :
  issues (perform a st) rq -> under_api rq = true.
Proof.
  intros Hiss.
  destruct a as [now| | | |now b|shot b]; cbn [perform] in Hiss;
    try destruct b; issued Hiss; subst rq; unfold under_api;
    try reflexivity; rewrite prefix_append_same; reflexivity.
Qed.

Lemma requests_stay_under_api_witness :
  issues (@perform eastern PHistory (click_History evening (History.delete_mood entry2 true))
            History.init)
         (axios_delete "https://moods.example/api/moods/2")
  /\ @under_api eastern (axios_delete "https://moods.example/api/moods/2") = true.
Proof.
  assert (Hiss : issues (@perform eastern PHistory
                           (click_History evening (History.delete_mood entry2 true))
                           History.init)
                        (axios_delete "https://moods.example/api/moods/2"))
    by (left; reflexivity).
  split; [exact Hiss|].
  exact (@requests_stay_under_api eastern _ _ _ _ Hiss).
Defined.
